(** * ms-tts: the MCP text-to-speech server (src/ms-tts.mjs)

    A shallow embedding of the server's voice table, its voice resolution,
    the synthesis routine and the two request handlers, with the properties
    the specification states about them.

    Conventions of the embedding.
    - A JavaScript string is a Rocq [string]; a character stands for one
      UTF-16 code unit, so that [String.length] is the string's [length]
      (strings with code units above 255 are outside the model).  The two
      pictographs that open the response texts are kept as the bytes of
      the source file.
    - A JavaScript number is an exact rational or one of Infinity,
      -Infinity, NaN ([JS.number]); rounding of doubles is not modelled,
      division by zero is.  The elapsed time and the SDK's audio duration
      are integers (milliseconds and ticks).
    - A thrown error is a value ([JS.Throw]); the promise of
      [synthesizeSpeech] is its settled state ([Resolved] or [Rejected]).
    - The Speech SDK, the clock and the file system answer through a
      [world]; what the server asks of them is recorded as a list of
      [event]s.  The diagnostics written with console.error are left out. *)

From Stdlib Require Import ZArith QArith Qabs Lqa String Ascii List Lia Bool.
From Stdlib Require Import DecimalString.
From stdpp Require Import base gmap strings.
Import ListNotations.

(** ** The JavaScript fragment the server uses *)

Module JS.

(** Values that reach the handlers: JSON values and [undefined]. *)
#[warnings="-register-all"]
Inductive value : Type :=
| JUndefined
| JNull
| JBool (b : bool)
| JNum (q : Q)
| JStr (s : string)
| JArr (l : list value)
| JObj (o : list (string * value)).

(** ToBoolean. *)
Definition truthy (v : value) : bool :=
  match v with
  | JUndefined | JNull => false
  | JBool b => b
  | JNum q => negb (Qeq_bool q 0)
  | JStr s => negb (String.eqb s "")
  | JArr _ | JObj _ => true
  end.

Definition typeof (v : value) : string :=
  match v with
  | JUndefined => "undefined"
  | JNull => "object"
  | JBool _ => "boolean"
  | JNum _ => "number"
  | JStr _ => "string"
  | JArr _ | JObj _ => "object"
  end.

(** [v === s] for a string [s]. *)
Definition strict_eq_str (v : value) (s : string) : bool :=
  match v with
  | JStr t => String.eqb t s
  | _ => false
  end.

(** [l.includes(v)] for an array of strings. *)
Definition includes (l : list string) (v : value) : bool :=
  existsb (strict_eq_str v) l.

(** The string of a value known to be one (used under a typeof guard). *)
Definition str_of (v : value) : string :=
  match v with
  | JStr s => s
  | _ => ""
  end.

(** [a || b] on values that are a string or undefined. *)
Definition or_else (a b : option string) : option string :=
  match a with
  | Some s => if String.eqb s "" then b else a
  | None => b
  end.

(** [a || d] for a string literal [d]. *)
Definition or_default (a : option string) (d : string) : string :=
  match a with
  | Some s => if String.eqb s "" then d else s
  | None => d
  end.

(** ToBoolean on a string, and on a string or undefined. *)
Definition truthy_str (s : string) : bool := negb (String.eqb s "").

Definition truthy_opt (a : option string) : bool :=
  match a with
  | Some s => truthy_str s
  | None => false
  end.

(** Errors: [new Error(message)] and the engine's TypeError. *)
Inductive error_class : Type := Error | TypeError.

Record error : Type := mkError { class : error_class; message : string }.

Inductive completion (A : Type) : Type :=
| Normal (a : A)
| Throw (e : error).
Arguments Normal {A} a.
Arguments Throw {A} e.

(** Messages of the engine's TypeErrors (V8's wording). *)
Definition cannot_read (prop : string) : string :=
  "Cannot read properties of undefined (reading '" +:+ prop +:+ "')".

Definition cannot_destructure (prop obj : string) : string :=
  "Cannot destructure property '" +:+ prop +:+ "' of '" +:+ obj
    +:+ "' as it is undefined.".

(** Names every object literal inherits from Object.prototype. *)
Definition Object_prototype : list string :=
  [ "constructor"; "__defineGetter__"; "__defineSetter__"; "hasOwnProperty";
    "__lookupGetter__"; "__lookupSetter__"; "isPrototypeOf";
    "propertyIsEnumerable"; "toString"; "valueOf"; "__proto__";
    "toLocaleString" ].

Definition inherited (name : string) : bool :=
  existsb (String.eqb name) Object_prototype.

(** *** Strings *)

Definition code (c : ascii) : nat := nat_of_ascii c.

Definition in_range (lo hi : nat) (c : ascii) : bool :=
  (lo <=? code c) && (code c <=? hi).

(** The class [a-zA-Z0-9]. *)
Definition alnum (c : ascii) : bool :=
  in_range 97 122 c || in_range 65 90 c || in_range 48 57 c.

(** The class [:.]. *)
Definition colon_or_dot (c : ascii) : bool :=
  (code c =? 58) || (code c =? 46).

(** The class \s, on code units below 256. *)
Definition white_space (c : ascii) : bool :=
  in_range 9 13 c || (code c =? 32) || (code c =? 160).

(** [s.replace(/[class]/g, by)]: every character of the class. *)
Fixpoint replace_all (class : ascii -> bool) (by_ : string) (s : string) : string :=
  match s with
  | EmptyString => EmptyString
  | String c s' =>
      (if class c then by_ else String c EmptyString) +:+ replace_all class by_ s'
  end.

(** [s.replace(pat, by)] with a string pattern: the first occurrence only. *)
Fixpoint replace_first (pat by_ : string) (s : string) : string :=
  if String.prefix pat s then by_ +:+ String.substring (String.length pat) (String.length s) s
  else match s with
       | EmptyString => EmptyString
       | String c s' => String c (replace_first pat by_ s')
       end.

Definition cons_head (c : ascii) (l : list string) : list string :=
  match l with
  | [] => [String c EmptyString]
  | w :: ws => String c w :: ws
  end.

(** [s.split(/\s+/)]: [after_ws] tells that the previous character
    belonged to a separator. *)
Fixpoint split_go (after_ws : bool) (s : string) : list string :=
  match s with
  | EmptyString => [EmptyString]
  | String c s' =>
      if white_space c
      then (if after_ws then split_go true s' else EmptyString :: split_go true s')
      else cons_head c (split_go false s')
  end.

Definition split_ws (s : string) : list string := split_go false s.

(** [l.join(sep)]. *)
Fixpoint join (sep : string) (l : list string) : string :=
  match l with
  | [] => ""
  | [x] => x
  | x :: l' => x +:+ sep +:+ join sep l'
  end.

Definition nl : string := String (ascii_of_nat 10) EmptyString.
Definition dq : string := String (ascii_of_nat 34) EmptyString.

(** The lines of a template literal. *)
Definition lines (l : list string) : string := join nl l.

(** *** Numbers *)

Inductive number : Type :=
| Fin (q : Q)
| PosInf
| NegInf
| NaN.

Definition of_Z (z : Z) : number := Fin (inject_Z z).
Definition of_nat (n : nat) : number := of_Z (Z.of_nat n).

Definition sign (q : Q) : comparison := (q ?= 0)%Q.

(** [a / b]. *)
Definition div (a b : number) : number :=
  match a, b with
  | NaN, _ | _, NaN => NaN
  | Fin x, Fin y =>
      match sign y with
      | Eq => match sign x with Eq => NaN | Gt => PosInf | Lt => NegInf end
      | _ => Fin (x / y)
      end
  | Fin _, (PosInf | NegInf) => Fin 0
  | (PosInf | NegInf), (PosInf | NegInf) => NaN
  | PosInf, Fin y => match sign y with Lt => NegInf | _ => PosInf end
  | NegInf, Fin y => match sign y with Lt => PosInf | _ => NegInf end
  end.

(** [a * b]. *)
Definition mul (a b : number) : number :=
  match a, b with
  | NaN, _ | _, NaN => NaN
  | Fin x, Fin y => Fin (x * y)
  | Fin x, PosInf | PosInf, Fin x =>
      match sign x with Eq => NaN | Gt => PosInf | Lt => NegInf end
  | Fin x, NegInf | NegInf, Fin x =>
      match sign x with Eq => NaN | Gt => NegInf | Lt => PosInf end
  | PosInf, PosInf | NegInf, NegInf => PosInf
  | PosInf, NegInf | NegInf, PosInf => NegInf
  end.

(** [a > 0]. *)
Definition positive (a : number) : bool :=
  match a with
  | Fin q => match sign q with Gt => true | _ => false end
  | PosInf => true
  | NegInf | NaN => false
  end.

Definition digit (d : Z) : ascii := ascii_of_nat (48 + Z.to_nat d).

(** The last [f] decimal digits of [r], most significant first. *)
Fixpoint frac_digits (f : nat) (r : Z) : string :=
  match f with
  | O => EmptyString
  | S f' => frac_digits f' (r / 10) +:+ String (digit (r mod 10)) EmptyString
  end.

Definition decimal (n : Z) : string :=
  NilZero.string_of_uint (N.to_uint (Z.to_N n)).

(** The integer nearest to [q], the larger one of two. *)
Definition round_half_up (q : Q) : Z :=
  (2 * Qnum q + Zpos (Qden q)) / (2 * Zpos (Qden q)).

End JS.

Import JS.

(** ** The voice table *)

(** A language's entry of VOICE_CONFIG; [default_voice] is its property
    [default]. *)
Record profile : Type := mkProfile {
  default_voice : string;
  alternatives : list string
}.

(** The properties of the object literal VOICE_CONFIG, in source order. *)
Definition voice_table : list (string * profile) :=
    [ ("en-US", mkProfile "en-US-RyanMultilingualNeural"
                  ["en-US-JennyMultilingualNeural"; "en-US-AndrewMultilingualNeural"]);
      ("fi-FI", mkProfile "en-US-RyanMultilingualNeural"
                  ["en-US-JennyMultilingualNeural"; "fi-FI-SelmaNeural";
                   "fi-FI-NooraNeural"; "fi-FI-HarriNeural"]);
      ("es-ES", mkProfile "es-ES-AlvaroNeural" ["es-ES-ElviraNeural"]);
      ("de-DE", mkProfile "de-DE-ConradNeural" ["de-DE-KatjaNeural"]);
      ("fr-FR", mkProfile "fr-FR-DeniseNeural" ["fr-FR-HenriNeural"]);
      ("sv-SE", mkProfile "sv-SE-MattiasNeural" ["sv-SE-SofieNeural"]) ].

Definition VOICE_CONFIG : gmap string profile := list_to_map voice_table.

(** What [VOICE_CONFIG[language]] evaluates to: an entry of the table, a
    member inherited from Object.prototype (an object or a function with
    neither [default] nor [alternatives]), or undefined. *)
Inductive member : Type :=
| Own (p : profile)
| Proto
| Missing.

Definition VOICE_CONFIG_at (language : string) : member :=
  match VOICE_CONFIG !! language with
  | Some p => Own p
  | None => if inherited language then Proto else Missing
  end.

(** [m.default]. *)
Definition member_default (m : member) : completion value :=
  match m with
  | Own p => Normal (JStr (default_voice p))
  | Proto => Normal JUndefined
  | Missing => Throw (mkError TypeError (cannot_read "default"))
  end.

(** getVoiceForLanguage(language, requestedVoice = null). *)
Definition getVoiceForLanguage (language : string) (requestedVoice : value)
  : completion value :=
  match VOICE_CONFIG_at language with
  | Missing => member_default (VOICE_CONFIG_at "en-US")
  | Proto =>
      if truthy requestedVoice
      then Throw (mkError TypeError (cannot_read "includes"))
      else Normal JUndefined
  | Own langConfig =>
      if truthy requestedVoice
         && (strict_eq_str requestedVoice (default_voice langConfig)
             || includes (alternatives langConfig) requestedVoice)
      then Normal requestedVoice
      else Normal (JStr (default_voice langConfig))
  end.

(** ** The tool descriptor *)

Module Schema.

Record property : Type := mkProperty {
  type : string;
  description : string;
  minLength : option nat;
  maxLength : option nat;
  enum : option (list string);
  default : option string;
  examples : option (list string)
}.

Record object : Type := mkObject {
  properties : list (string * property);
  required : list string
}.

Record tool : Type := mkTool {
  name : string;
  tool_description : string;
  inputSchema : object
}.

Definition property_of (o : object) (key : string) : option property :=
  snd <$> find (fun kv => String.eqb (fst kv) key) (properties o).

End Schema.

(** The handler of ListToolsRequestSchema: the value of [tools]. *)
Definition listTools : list Schema.tool :=
  [ Schema.mkTool "synthesize_speech"
      "Convert text to speech using Microsoft Azure Speech Services. Supports multiple languages and voices."
      (Schema.mkObject
         [ ("sentence",
            Schema.mkProperty "string" "The text to convert to speech"
              (Some 1) (Some 1000) None None None);
           ("language",
            Schema.mkProperty "string"
              "Language code (e.g., en-US, fi-FI, es-ES, de-DE, fr-FR, sv-SE)"
              None None
              (Some ["en-US"; "fi-FI"; "es-ES"; "de-DE"; "fr-FR"; "sv-SE"])
              (Some "en-US") None);
           ("voice",
            Schema.mkProperty "string"
              "Optional specific voice name. If not provided, uses the best voice for the language."
              None None None None
              (Some ["en-US-RyanMultilingualNeural"; "fi-FI-SelmaNeural";
                     "es-ES-AlvaroNeural"; "de-DE-ConradNeural";
                     "fr-FR-DeniseNeural"; "sv-SE-MattiasNeural"])) ]
         ["sentence"; "language"]) ].

(** ** The outside world *)

Module Sdk.

(** The fields of a SpeechSynthesisResult the server reads; [audioDuration]
    counts ticks of 100 ns. *)
Record result : Type := mkResult {
  errorDetails : option string;
  audioData : option (list Byte.byte);
  audioDuration : option Z
}.

(** speakTextAsync answers through its result callback or its error
    callback. *)
Inductive reply : Type :=
| Result (r : result)
| Failure (err : string).

End Sdk.

(** One call's answers: the clock ([new Date().toISOString()], Date.now()
    before the call and in the callback); whether
    SpeechConfig.fromSubscription throws, and with which message; the
    SDK's reply to speakTextAsync; whether writeFileSync throws, and with
    which message.  The SpeechSynthesizer constructor and speakTextAsync
    itself are taken to return, and the SDK to answer each call once. *)
Record world : Type := mkWorld {
  now_iso : string;
  start_time : Z;
  end_time : Z;
  sdk_setup : option string;
  sdk_reply : Sdk.reply;
  write_error : option string
}.

Inductive event : Type :=
| SpeakTextAsync (text language voice : string)
| WriteFileSync (path : string) (data : list Byte.byte)
| Close.

Definition is_speak (e : event) : bool :=
  match e with SpeakTextAsync _ _ _ => true | _ => false end.

Definition is_write (e : event) : bool :=
  match e with WriteFileSync _ _ => true | _ => false end.

(** ** Results and responses *)

Record metrics : Type := mkMetrics {
  synthesisTime : Z;
  audioDuration : number;
  wordCount : nat;
  charactersPerSecond : string;
  wordsPerMinute : string
}.

Record resultObj : Type := mkResultObj {
  success : bool;
  audioFile : string;
  filename : string;
  voice : string;
  language : string;
  sentence : string;
  result_metrics : metrics
}.

(** The settled promise of synthesizeSpeech; a rejection carries the
    message of its Error. *)
Inductive outcome : Type :=
| Resolved (r : resultObj)
| Rejected (message : string).

Record content_item : Type := mkContent { content_type : string; text : string }.

Record response : Type := mkResponse { content : list content_item }.

Definition success_mark : string :=
  string_of_list_ascii (map ascii_of_nat [239; 163; 191; 195; 188; 195; 169; 194; 181]).

Definition failure_mark : string :=
  string_of_list_ascii (map ascii_of_nat [226; 128; 154; 195; 185; 195; 165]).

Definition supportedLanguages : list string :=
  ["en-US"; "fi-FI"; "es-ES"; "de-DE"; "fr-FR"; "sv-SE"].

Definition credentials_message : string :=
  "Azure Speech Service credentials not configured. Please set AZURE_SPEECH_KEY and AZURE_SPEECH_REGION environment variables.".

Definition troubleshooting : list string :=
  [ "**Troubleshooting Tips:**";
    "- Check that Azure Speech Service credentials are properly configured";
    "- Verify the language code is supported: en-US, fi-FI, es-ES, de-DE, fr-FR, sv-SE";
    "- Ensure the sentence is not empty and under 1000 characters";
    "- Check that the voice name (if specified) is valid for the selected language" ].

(** The errors the tools/call handler throws. *)
Definition unknown_tool (name : string) : error :=
  mkError Error ("Unknown tool: " +:+ name).

Definition invalid_parameter (key : string) : error :=
  mkError Error ("Invalid or missing " +:+ dq +:+ key +:+ dq +:+ " parameter").

Definition unsupported_language (language : string) : error :=
  mkError Error
    ("Unsupported language: " +:+ language
       +:+ ". Supported languages: " +:+ join ", " supportedLanguages).

(** The TypeError of [const { sentence, language, voice } = args] on an
    undefined [args]. *)
Definition no_arguments : error :=
  mkError TypeError (cannot_destructure "sentence" "args").

(** The text of the catch branch of the tools/call handler. *)
Definition failure_text (message : string) : string :=
  lines ((failure_mark +:+ " Speech synthesis failed: " +:+ message) :: "" :: troubleshooting).

(** A tools/call request as the SDK hands it to the handler: [name] is a
    string, [arguments] an object or absent. *)
Record request : Type := mkRequest {
  name : string;
  arguments : option (gmap string value)
}.

(** [args.key], undefined when the key is absent. *)
Definition prop (args : gmap string value) (key : string) : value :=
  default JUndefined (args !! key).

Section Server.

(** The process environment (with the .env file loaded into it), Node's
    path.resolve in the server's working directory, and the engine's
    Number::toString. *)
Variable process_env : gmap string string.
Variable path_resolve : string -> string -> string.
Variable Number_toString : number -> string.

Definition AZURE_SPEECH_KEY : option string :=
  or_else (process_env !! "AZURE_SPEECH_KEY") (process_env !! "AZURE_SPEECH_KEY_FREE").

Definition AZURE_SPEECH_REGION : string :=
  or_default (or_else (process_env !! "AZURE_SPEECH_REGION")
                      (process_env !! "AZURE_SPEECH_REGION_FREE"))
             "westeurope".

Definition AUDIO_OUTPUT_DIR : string :=
  or_default (process_env !! "AUDIO_OUTPUT_DIR") "./audio/mcp-generated".

(** [x.toFixed(f)]: decimal notation below 10^21, Number::toString from
    there on. *)
Definition toFixed (x : number) (f : nat) : string :=
  match x with
  | NaN => "NaN"
  | PosInf => "Infinity"
  | NegInf => "-Infinity"
  | Fin q =>
      if Qle_bool (inject_Z (10 ^ 21)) (Qabs q) then Number_toString x
      else
        let n := round_half_up (Qabs q * inject_Z (10 ^ Z.of_nat f)) in
        (match sign q with Lt => "-" | _ => "" end)
          +:+ decimal (n / 10 ^ Z.of_nat f)
          +:+ (match f with
               | O => ""
               | S _ => "." +:+ frac_digits f (n mod 10 ^ Z.of_nat f)
               end)
  end.

(** The text of the success branch of the tools/call handler. *)
Definition success_text (result : resultObj) : string :=
  let m := result_metrics result in
  lines
    [ success_mark +:+ " Speech synthesis completed successfully!";
      "";
      "**Audio Details:**";
      "- File: " +:+ filename result;
      "- Path: " +:+ audioFile result;
      "- Voice: " +:+ voice result;
      "- Language: " +:+ language result;
      "";
      "**Performance Metrics:**";
      "- Synthesis Time: " +:+ Number_toString (of_Z (synthesisTime m)) +:+ "ms";
      "- Audio Duration: " +:+ Number_toString (audioDuration m) +:+ "ms";
      "- Word Count: " +:+ Number_toString (of_nat (wordCount m));
      "- Characters/Second: " +:+ charactersPerSecond m;
      "- Words/Minute: " +:+ wordsPerMinute m;
      "";
      "**Original Text:**";
      dq +:+ sentence result +:+ dq;
      "";
      "The audio file has been saved and is ready for playback." ].

Definition setup_error (message : string) : outcome :=
  Rejected ("Speech synthesis setup error: " +:+ message).

(** [!result.audioData || result.audioData.byteLength === 0]. *)
Definition no_audio (result : Sdk.result) : bool :=
  match Sdk.audioData result with
  | None => true
  | Some data => length data =? 0
  end.

(** The metrics of the result callback: [duration] is the elapsed time in
    ms, [ticks] the SDK's [result.audioDuration].  The quotients are taken
    exactly, where the engine rounds each to a double: the last digit of
    the two rates can differ from the engine's; their guards, sign and
    finiteness do not. *)
Definition compute_metrics (sentence : string) (wordCount : nat) (duration : Z)
    (ticks : option Z) : metrics :=
  let audioDuration :=
    match ticks with
    | Some t => if (t =? 0)%Z then of_Z 0 else div (of_Z t) (of_Z 10000)
    | None => of_Z 0
    end in
  let audioSeconds := div audioDuration (of_Z 1000) in
  mkMetrics duration audioDuration wordCount
    (if (0 <? duration)%Z
     then toFixed (div (of_nat (String.length sentence)) (div (of_Z duration) (of_Z 1000))) 2
     else "0.00")
    (if positive audioSeconds
     then toFixed (mul (div (of_nat wordCount) audioSeconds) (of_Z 60)) 2
     else "0.00").

(** synthesizeSpeech(sentence, language, voice = null): the settled
    promise and the calls made on the way. *)
Definition synthesizeSpeech (sentence language : string) (voice : value) (w : world)
  : outcome * list event :=
  if negb (truthy_opt AZURE_SPEECH_KEY) || negb (truthy_str AZURE_SPEECH_REGION)
  then (Rejected credentials_message, [])
  else
    match getVoiceForLanguage language voice with
    | Throw e => (setup_error (message e), [])
    | Normal selectedVoice =>
    match sdk_setup w with
    | Some m => (setup_error m, [])
    | None =>
    let timestamp := replace_all colon_or_dot "-" (now_iso w) in
    let languageCode := replace_first "-" "_" language in
    match selectedVoice with
    | JStr selected =>
        let voiceName := replace_all (fun c => negb (alnum c)) "-" selected in
        let filename :=
          "mcp-tts-" +:+ languageCode +:+ "-" +:+ voiceName +:+ "-" +:+ timestamp +:+ ".wav" in
        let outputPath := path_resolve AUDIO_OUTPUT_DIR filename in
        let wordCount := length (split_ws sentence) in
        let call := SpeakTextAsync sentence language selected in
        match sdk_reply w with
        | Sdk.Failure err =>
            (Rejected ("Speech synthesis error: " +:+ err), [call; Close])
        | Sdk.Result result =>
            let duration := (end_time w - start_time w)%Z in
            if truthy_opt (Sdk.errorDetails result)
            then (Rejected ("Speech synthesis failed: " +:+ default "" (Sdk.errorDetails result)),
                  [call; Close])
            else if no_audio result
            then (Rejected "Speech synthesis produced no audio data", [call; Close])
            else
              let data := default [] (Sdk.audioData result) in
              match write_error w with
              | Some m =>
                  (Rejected ("Failed to save audio file: " +:+ m),
                   [call; WriteFileSync outputPath data; Close])
              | None =>
                  (Resolved
                     (mkResultObj true outputPath filename selected language sentence
                        (compute_metrics sentence wordCount duration
                           (Sdk.audioDuration result))),
                   [call; WriteFileSync outputPath data; Close])
              end
        end
    | _ => (setup_error (cannot_read "replace"), [])
    end
    end
    end.

Definition text_response (text : string) : response :=
  mkResponse [mkContent "text" text].

(** The handler of CallToolRequestSchema.  The check of [result.metrics]
    after the await cannot fail: a resolved promise carries a [resultObj]. *)
Definition callTool (req : request) (w : world) : completion response * list event :=
  if negb (String.eqb (name req) "synthesize_speech")
  then (Throw (unknown_tool (name req)), [])
  else
    match arguments req with
    | None => (Throw no_arguments, [])
    | Some args =>
        let sentence := prop args "sentence" in
        let language := prop args "language" in
        let voice := prop args "voice" in
        if negb (truthy sentence) || negb (String.eqb (typeof sentence) "string")
        then (Throw (invalid_parameter "sentence"), [])
        else if negb (truthy language) || negb (String.eqb (typeof language) "string")
        then (Throw (invalid_parameter "language"), [])
        else if negb (includes supportedLanguages language)
        then (Throw (unsupported_language (str_of language)), [])
        else
          match synthesizeSpeech (str_of sentence) (str_of language) voice w with
          | (Resolved result, calls) => (Normal (text_response (success_text result)), calls)
          | (Rejected message, calls) => (Normal (text_response (failure_text message)), calls)
          end
    end.

(** *** Vocabulary for the properties *)

(** Both credentials are configured. *)
Definition credentials : bool :=
  truthy_opt AZURE_SPEECH_KEY && truthy_str AZURE_SPEECH_REGION.

(** The file name synthesizeSpeech builds for a language, a voice and a
    time stamp, and its path. *)
Definition file_name (language selected iso : string) : string :=
  "mcp-tts-" +:+ replace_first "-" "_" language +:+ "-"
    +:+ replace_all (fun c => negb (alnum c)) "-" selected +:+ "-"
    +:+ replace_all colon_or_dot "-" iso +:+ ".wav".

Definition file_path (language selected iso : string) : string :=
  path_resolve AUDIO_OUTPUT_DIR (file_name language selected iso).

(** The operational failures of a synthesis in the world [w], each with
    the message its rejection carries. *)
Inductive domain_failure (w : world) : string -> Prop :=
| NoCredentials :
    credentials = false -> domain_failure w credentials_message
| SetupError (detail : string) :
    domain_failure w ("Speech synthesis setup error: " +:+ detail)
| SynthesisError (err : string) :
    sdk_reply w = Sdk.Failure err ->
    domain_failure w ("Speech synthesis error: " +:+ err)
| SynthesisFailed (result : Sdk.result) (detail : string) :
    sdk_reply w = Sdk.Result result ->
    Sdk.errorDetails result = Some detail -> detail <> "" ->
    domain_failure w ("Speech synthesis failed: " +:+ detail)
| EmptyAudio (result : Sdk.result) :
    sdk_reply w = Sdk.Result result ->
    Sdk.audioData result = None \/ Sdk.audioData result = Some [] ->
    domain_failure w "Speech synthesis produced no audio data"
| WriteFailure (detail : string) :
    write_error w = Some detail ->
    domain_failure w ("Failed to save audio file: " +:+ detail).

End Server.

(** ** The specification's vocabulary *)

(** The voices a profile allows: its default and its alternatives. *)
Definition allowed (p : profile) (v : string) : Prop :=
  v = default_voice p \/ In v (alternatives p).

(** The failures the specification surfaces as protocol-level errors. *)
Inductive failure_kind : Type :=
| UnknownTool
| MissingParameter
| UnsupportedLanguage.

(** A required parameter is missing or malformed when it is absent, not a
    string, or the empty string. *)
Definition well_formed (v : option value) : bool :=
  match v with
  | Some (JStr s) => negb (String.eqb s "")
  | _ => false
  end.

(** The protocol-level failure of a request, if it has one, in the order
    the specification lists them. *)
Definition request_fault (req : request) : option failure_kind :=
  if negb (String.eqb (name req) "synthesize_speech") then Some UnknownTool
  else
    match arguments req with
    | None => Some MissingParameter
    | Some args =>
        if negb (well_formed (args !! "sentence")) then Some MissingParameter
        else if negb (well_formed (args !! "language")) then Some MissingParameter
        else if existsb (String.eqb (str_of (prop args "language"))) supportedLanguages
        then None
        else Some UnsupportedLanguage
    end.

(** [f] applied to every character. *)
Definition map_chars (f : ascii -> ascii) (s : string) : string :=
  string_of_list_ascii (map f (list_ascii_of_string s)).

Definition hyphen : ascii := ascii_of_nat 45.
Definition underscore : ascii := ascii_of_nat 95.

Definition is_digit (c : ascii) : bool := in_range 48 57 c.

(** Decimal notation with two places: digits, a period, two digits. *)
Definition fixed2 (s : string) : bool :=
  match rev (list_ascii_of_string s) with
  | d2 :: d1 :: dot :: d0 :: int =>
      is_digit d2 && is_digit d1 && (code dot =? 46) && is_digit d0 && forallb is_digit int
  | _ => false
  end.

(** A call of the registered tool with the arguments [args]. *)
Definition tool_call (args : gmap string value) : request :=
  mkRequest "synthesize_speech" (Some args).

(** The world [w] with another reply of the SDK. *)
Definition with_reply (w : world) (r : Sdk.reply) : world :=
  mkWorld (now_iso w) (start_time w) (end_time w) (sdk_setup w) r (write_error w).

(** The audio duration in ms of the SDK's ticks. *)
Definition audio_ms (ticks : option Z) : Q :=
  match ticks with
  | Some t => inject_Z t / inject_Z 10000
  | None => 0
  end.

(** ** Sample inputs *)

Definition sample_env : gmap string string :=
  {[ "AZURE_SPEECH_KEY" := "0123456789abcdef" ]}.

Definition sample_resolve (dir file : string) : string := dir +:+ "/" +:+ file.

(** Number::toString on the integers below 10^21. *)
Definition sample_toString (x : number) : string :=
  match x with
  | Fin q => decimal (Qnum q / Zpos (Qden q))
  | PosInf => "Infinity"
  | NegInf => "-Infinity"
  | NaN => "NaN"
  end.

Definition sample_audio : list Byte.byte := [Byte.x52; Byte.x49; Byte.x46; Byte.x46].

Definition sample_world : world :=
  mkWorld "2025-08-17T16:30:45.123Z" 1000 1250 None
    (Sdk.Result (Sdk.mkResult None (Some sample_audio) (Some 12345000%Z))) None.

(** The SDK reports success and hands over no bytes. *)
Definition silent_world : world :=
  mkWorld "2025-08-17T16:30:45.123Z" 1000 1250 None
    (Sdk.Result (Sdk.mkResult None (Some []) (Some 0%Z))) None.

Definition sample_args : gmap string value :=
  {[ "sentence" := JStr "Hello, this is a test."; "language" := JStr "en-US" ]}.

Definition long_sentence : string := string_of_list_ascii (repeat "a"%char 1001).

Definition long_request : request :=
  tool_call {[ "sentence" := JStr long_sentence; "language" := JStr "en-US" ]}.

(** The synthesis of the sample sentence in the sample world. *)
Definition sample_result : resultObj :=
  Eval vm_compute in
    match fst (synthesizeSpeech sample_env sample_resolve sample_toString
                 "Hello, this is a test." "en-US" JUndefined sample_world) with
    | Resolved r => r
    | Rejected _ => mkResultObj false "" "" "" "" "" (mkMetrics 0 NaN 0 "" "")
    end.

Definition sample_calls : list event :=
  Eval vm_compute in
    snd (synthesizeSpeech sample_env sample_resolve sample_toString
           "Hello, this is a test." "en-US" JUndefined sample_world).

Definition is_normal {A : Type} (c : completion A) : bool :=
  match c with Normal _ => true | Throw _ => false end.

(** ** File names and word counts *)

(** Characters of a portable file name: letters, digits, hyphen,
    underscore and period. *)
Definition safe_char (c : ascii) : bool :=
  alnum c || (code c =? 45) || (code c =? 95) || (code c =? 46).

(** Characters of an ISO time stamp: digits and letters, hyphen, colon and
    period. *)
Definition iso_char (c : ascii) : bool :=
  alnum c || (code c =? 45) || colon_or_dot c.

Definition all_chars (p : ascii -> bool) (s : string) : bool :=
  forallb p (list_ascii_of_string s).

(** ** createSSML *)

(** [s.trim()]: white space and line terminators off both ends. *)
Fixpoint trim_start (s : string) : string :=
  match s with
  | EmptyString => EmptyString
  | String c s' => if white_space c then trim_start s' else s
  end.

Fixpoint trim_end (s : string) : string :=
  match s with
  | EmptyString => EmptyString
  | String c s' =>
      match trim_end s' with
      | EmptyString => if white_space c then EmptyString else String c EmptyString
      | t => String c t
      end
  end.

Definition trim (s : string) : string := trim_end (trim_start s).

(** [name="value"]. *)
Definition attribute (name value : string) : string :=
  name +:+ "=" +:+ dq +:+ value +:+ dq.

(** The lines of the template literal of createSSML after its first,
    empty one. *)
Definition ssml_lines (text voice language rate pitch : string) : list string :=
  [ "<speak " +:+ attribute "version" "1.0" +:+ " "
      +:+ attribute "xmlns" "http://www.w3.org/2001/10/synthesis" +:+ " "
      +:+ attribute "xml:lang" language +:+ ">";
    "    <voice " +:+ attribute "name" voice +:+ ">";
    "        <prosody " +:+ attribute "rate" rate +:+ " " +:+ attribute "pitch" pitch +:+ ">";
    "            " +:+ text;
    "        </prosody>";
    "    </voice>";
    "</speak>" ].

(** createSSML(text, voice, language, rate = '1.0', pitch = '0%'); an
    argument left out is [None]. *)
Definition createSSML (text voice language : string) (rate pitch : option string)
  : string :=
  trim (lines ("" :: ssml_lines text voice language (default "1.0" rate) (default "0%" pitch))).

(** ** Declared schema and arguments *)

(** [hay.includes(needle)]. *)
Fixpoint str_includes (hay needle : string) : bool :=
  if String.prefix needle hay then true
  else match hay with
       | EmptyString => false
       | String _ hay' => str_includes hay' needle
       end.

(** JSON Schema on the keywords the tool's schema uses: a value satisfies
    a property of type string when it is a string within the length
    bounds and, if there is an enumeration, one of its members. *)
Definition satisfies (p : Schema.property) (v : value) : bool :=
  match v with
  | JStr s =>
      String.eqb (Schema.type p) "string"
      && match Schema.minLength p with Some n => n <=? String.length s | None => true end
      && match Schema.maxLength p with Some n => String.length s <=? n | None => true end
      && match Schema.enum p with Some l => existsb (String.eqb s) l | None => true end
  | _ => false
  end.

(** An arguments object is valid for a schema when it has every required
    key and each declared key it has satisfies its property. *)
Definition schema_valid (o : Schema.object) (args : gmap string value) : bool :=
  forallb (fun key => match args !! key with Some _ => true | None => false end)
          (Schema.required o)
  && forallb (fun kp => match args !! fst kp with
                        | Some v => satisfies (snd kp) v
                        | None => true
                        end)
             (Schema.properties o).

(** ** The test client and the test suite (src/test-server.mjs) *)

Module Test.

(** What the server's side of the pipe sends back for a request: a
    response with a result, a response with an error, or nothing before
    the client's timeout. *)
Inductive answer (A : Type) : Type :=
| WithResult (result : A)
| WithError (message : string)
| Nothing.
Arguments WithResult {A} result.
Arguments WithError {A} message.
Arguments Nothing {A}.

(** The promise of MCPTestClient.sendRequest, settled. *)
Inductive outcome (A : Type) : Type :=
| Resolve (result : A)
| Reject (message : string).
Arguments Resolve {A} result.
Arguments Reject {A} message.

Definition sendRequest {A : Type} (method : string) (a : answer A) : outcome A :=
  match a with
  | WithResult result => Resolve result
  | WithError message => Reject ("MCP Error: " +:+ message)
  | Nothing => Reject ("Request timeout: " +:+ method)
  end.

(** The MCP SDK's answer for a handler that returned or threw: the
    returned value as the result, or an error carrying the thrown error's
    message. *)
Definition served {A : Type} (c : completion A) : answer A :=
  match c with
  | Normal result => WithResult result
  | Throw e => WithError (message e)
  end.

(** A test function returns, or throws an Error that runTest reports. *)
Inductive verdict : Type :=
| Pass
| Fail (message : string).

Definition passes (v : verdict) : bool :=
  match v with Pass => true | Fail _ => false end.

(** The error-handling tests: [try { await sendRequest(...); throw new
    Error(expected) } catch (error) { if (!error.message.includes(needle))
    throw new Error(wrong) }]. *)
Definition expect_rejection (needle expected wrong : string) (o : outcome response)
  : verdict :=
  let message := match o with
                 | Resolve _ => expected
                 | Reject message => message
                 end in
  if str_includes message needle then Pass else Fail wrong.

Definition missing_sentence_test : outcome response -> verdict :=
  expect_rejection "sentence" "Expected error for missing sentence"
    "Expected error message about missing sentence".

Definition unsupported_language_test : outcome response -> verdict :=
  expect_rejection "Unsupported language" "Expected error for unsupported language"
    "Expected error message about unsupported language".

Definition unknown_tool_test : outcome response -> verdict :=
  expect_rejection "Unknown tool" "Expected error for unknown tool"
    "Expected error message about unknown tool".

(** [result.content.find(c => c.type === 'text')]. *)
Definition text_content (r : response) : option content_item :=
  find (fun c => String.eqb (content_type c) "text") (content r).

(** The synthesis tests after their credentials check: the awaited
    request, the text item, the phrase looked for.  A [response] always
    has its content array, so the test's first check cannot fail. *)
Definition expect_text (phrase wrong : string) (o : outcome response) : verdict :=
  match o with
  | Reject message => Fail message
  | Resolve result =>
      match text_content result with
      | None => Fail "Expected text content in response"
      | Some c =>
          if String.eqb (text c) "" then Fail "Expected text content in response"
          else if str_includes (text c) phrase then Pass
          else Fail wrong
      end
  end.

Definition success_phrase : string := "Speech synthesis completed successfully".

Definition speech_test : outcome response -> verdict :=
  expect_text success_phrase "Response does not indicate success".

Definition voice_test : outcome response -> verdict :=
  expect_text "JennyMultilingualNeural" "Response does not mention the requested voice".

(** The loop of the multiple-requests test over its awaited requests,
    [i] counting from 0: a result with no content fails the test, which a
    [response] cannot be. *)
Fixpoint requests_test (os : list (outcome response)) : verdict :=
  match os with
  | [] => Pass
  | Reject message :: _ => Fail message
  | Resolve _ :: os' => requests_test os'
  end.

(** The list-tools test. *)
Definition list_tools_test (o : outcome (list Schema.tool)) : verdict :=
  match o with
  | Reject message => Fail message
  | Resolve tools =>
      if length tools =? 0 then Fail "No tools returned"
      else
        match List.filter (fun t => String.eqb (Schema.name t) "synthesize_speech") tools with
        | [tool] =>
            if String.eqb (Schema.tool_description tool) ""
            then Fail "Tool missing description or inputSchema"
            else Pass
        | _ => Fail "Expected exactly one synthesize_speech tool"
        end
  end.

(** The arguments the tests send. *)
Definition english_args : gmap string value :=
  {[ "sentence" := JStr "Hello, this is a test of the text-to-speech system.";
     "language" := JStr "en-US" ]}.

Definition a_umlaut : string := String (ascii_of_nat 228) EmptyString.

Definition finnish_args : gmap string value :=
  {[ "sentence" := JStr ("Hei, t" +:+ a_umlaut +:+ "m" +:+ a_umlaut +:+ " on testi.");
     "language" := JStr "fi-FI" ]}.

Definition voice_args : gmap string value :=
  {[ "sentence" := JStr "Testing with Jenny voice.";
     "language" := JStr "en-US";
     "voice" := JStr "en-US-JennyMultilingualNeural" ]}.

Definition missing_sentence_args : gmap string value :=
  {[ "language" := JStr "en-US" ]}.

Definition unsupported_language_args : gmap string value :=
  {[ "sentence" := JStr "Test sentence"; "language" := JStr "xx-XX" ]}.

Definition unknown_tool_request : request := mkRequest "unknown_tool" (Some ∅).

Definition quick_args (sentence : string) : gmap string value :=
  {[ "sentence" := JStr sentence; "language" := JStr "en-US" ]}.

Section Suite.

(** The environment the test process and the server it spawns share, and
    the server's other parameters. *)
Variable process_env : gmap string string.
Variable path_resolve : string -> string -> string.
Variable Number_toString : number -> string.

Definition hasCredentials : bool :=
  truthy_opt (or_else (process_env !! "AZURE_SPEECH_KEY")
                      (process_env !! "AZURE_SPEECH_KEY_FREE")).

(** A tools/call request sent to the server, which handles it in the
    world [w]. *)
Definition call (req : request) (w : world) : outcome response :=
  sendRequest "tools/call"
    (served (fst (callTool process_env path_resolve Number_toString req w))).

(** The tests in the order the suite registers them; [worlds i] is the
    world in which the server handles the [i]-th synthesis request the
    suite may send.  A synthesis test returns at once without
    credentials. *)
Definition tests (worlds : nat -> world) : list (string * verdict) :=
  [ ("List available tools",
     list_tools_test (sendRequest "tools/list" (WithResult listTools)));
    ("Synthesize English speech",
     if hasCredentials then speech_test (call (tool_call english_args) (worlds 0))
     else Pass);
    ("Synthesize Finnish speech",
     if hasCredentials then speech_test (call (tool_call finnish_args) (worlds 1))
     else Pass);
    ("Synthesize with specific voice",
     if hasCredentials then voice_test (call (tool_call voice_args) (worlds 2))
     else Pass);
    ("Handle missing sentence parameter",
     missing_sentence_test (call (tool_call missing_sentence_args) (worlds 3)));
    ("Handle unsupported language",
     unsupported_language_test (call (tool_call unsupported_language_args) (worlds 4)));
    ("Handle unknown tool",
     unknown_tool_test (call unknown_tool_request (worlds 5)));
    ("Handle multiple concurrent requests",
     if hasCredentials
     then requests_test
            [ call (tool_call (quick_args "First test")) (worlds 6);
              call (tool_call (quick_args "Second test")) (worlds 7);
              call (tool_call (quick_args "Third test")) (worlds 8) ]
     else Pass) ].

(** TestSuite.run: the counters and the exit code.  A server that fails
    to start counts as one failure and no test is run. *)
Definition run (start_error : option string) (worlds : nat -> world) : nat * nat * Z :=
  match start_error with
  | Some _ => (0, 1, 1%Z)
  | None =>
      let verdicts := map snd (tests worlds) in
      let passed := length (List.filter passes verdicts) in
      let failed := length (List.filter (fun v => negb (passes v)) verdicts) in
      (passed, failed, if failed =? 0 then 0%Z else 1%Z)
  end.

End Suite.

End Test.

(** ** Facts about the JavaScript fragment *)

(** The handler's guard [!v || typeof v !== 'string'] lets through the
    non-empty strings and nothing else. *)
Lemma string_guard (v : value) :
  negb (truthy v) || negb (String.eqb (typeof v) "string") = false <->
  exists s, v = JStr s /\ s <> "".
Proof.
  split.
  - destruct v; simpl; try discriminate.
    + destruct b; discriminate.
    + destruct (negb (Qeq_bool q 0)); discriminate.
    + intros H. exists s. split; [reflexivity|].
      destruct (String.eqb_spec s ""); [discriminate | assumption].
  - intros (s & -> & Hs). simpl.
    destruct (String.eqb_spec s ""); [contradiction | reflexivity].
Qed.

Lemma string_guard_well_formed (args : gmap string value) (key : string) :
  negb (truthy (prop args key)) || negb (String.eqb (typeof (prop args key)) "string")
  = negb (well_formed (args !! key)).
Proof.
  unfold prop. destruct (args !! key) as [v|]; simpl; [|reflexivity].
  destruct v; simpl; try reflexivity.
  - destruct b; reflexivity.
  - destruct (negb (Qeq_bool q 0)); reflexivity.
  - destruct (String.eqb s ""); reflexivity.
Qed.

Lemma includes_In (l : list string) (v : value) :
  includes l v = true <-> exists s, v = JStr s /\ In s l.
Proof.
  unfold includes. rewrite existsb_exists. split.
  - intros (x & Hx & Heq). destruct v; try discriminate.
    apply String.eqb_eq in Heq. subst. eauto.
  - intros (s & -> & Hs). exists s. split; [assumption | apply String.eqb_refl].
Qed.

Lemma includes_str (l : list string) (s : string) :
  includes l (JStr s) = existsb (String.eqb s) l.
Proof. reflexivity. Qed.

(** ** The voice table *)

Lemma VOICE_CONFIG_entry (L : string) (p : profile) :
  VOICE_CONFIG !! L = Some p ->
  In (L, p) voice_table.
Proof.
  intros H. apply list_elem_of_In, elem_of_list_to_map_2. exact H.
Qed.

(** The table's keys are the supported languages, and the other way round. *)
Lemma VOICE_CONFIG_supported (L : string) :
  In L supportedLanguages <-> exists p, VOICE_CONFIG !! L = Some p.
Proof.
  split.
  - intros H. simpl in H.
    repeat (destruct H as [<- | H]; [eexists; vm_compute; reflexivity|]).
    contradiction.
  - intros (p & H). apply VOICE_CONFIG_entry in H. unfold voice_table in H. simpl in H.
    repeat (destruct H as [H | H]; [inversion H; simpl; tauto|]).
    contradiction.
Qed.

Ltac table_cases H :=
  apply VOICE_CONFIG_entry in H; unfold voice_table in H; simpl in H;
  repeat (destruct H as [H | H]; [inversion H; subst; clear H|]);
  [.. | contradiction].

(** No voice of the table is the empty string. *)
Lemma allowed_nonempty (L : string) (p : profile) (v : string) :
  VOICE_CONFIG !! L = Some p -> allowed p v -> v <> "".
Proof.
  intros H Hv. unfold allowed in Hv.
  table_cases H; simpl in Hv; intuition (subst; discriminate).
Qed.

Lemma allowed_dec (p : profile) (v : string) :
  strict_eq_str (JStr v) (default_voice p) || includes (alternatives p) (JStr v) = true
  <-> allowed p v.
Proof.
  unfold allowed. rewrite orb_true_iff, includes_In. simpl.
  rewrite String.eqb_eq. split.
  - intros [H | (s & Hs & Hin)]; [left; assumption | right; congruence].
  - intros [H | H]; [left; assumption | right; eauto].
Qed.

Lemma allowed_value (p : profile) (V : value) :
  strict_eq_str V (default_voice p) || includes (alternatives p) V = true ->
  exists s, V = JStr s /\ allowed p s.
Proof.
  intros H. apply orb_true_iff in H. destruct H as [H | H].
  - destruct V; try discriminate H. exists s. split; [reflexivity|].
    left. apply String.eqb_eq. exact H.
  - apply includes_In in H. destruct H as (s & -> & Hs).
    exists s. split; [reflexivity | right; exact Hs].
Qed.

Lemma getVoiceForLanguage_own (L : string) (p : profile) (V : value) :
  VOICE_CONFIG !! L = Some p ->
  getVoiceForLanguage L V =
  if truthy V && (strict_eq_str V (default_voice p) || includes (alternatives p) V)
  then Normal V else Normal (JStr (default_voice p)).
Proof.
  intros H. unfold getVoiceForLanguage, VOICE_CONFIG_at. rewrite H. reflexivity.
Qed.

Lemma getVoiceForLanguage_missing (L : string) (V : value) :
  VOICE_CONFIG !! L = None -> inherited L = false ->
  getVoiceForLanguage L V = Normal (JStr "en-US-RyanMultilingualNeural").
Proof.
  intros H Hi. unfold getVoiceForLanguage, VOICE_CONFIG_at. rewrite H, Hi. reflexivity.
Qed.

(** C2. For a language code L (a name that is none of Object.prototype's)
    and a requested voice V: getVoiceForLanguage returns V when V is the
    default voice of L's profile or one of its alternatives, the profile's
    default voice otherwise, and the default voice of the en-US profile when
    L has no profile; it returns a voice in every case and throws in none.
    A profile's default voice resolves to itself, also for fi-FI, whose
    default is not among its alternatives. *)
Theorem getVoiceForLanguage_resolves (L : string) (V : value) :
  inherited L = false ->
  (exists voice, getVoiceForLanguage L V = Normal (JStr voice))
  /\ (forall p v, VOICE_CONFIG !! L = Some p -> V = JStr v -> allowed p v ->
        getVoiceForLanguage L V = Normal V)
  /\ (forall p, VOICE_CONFIG !! L = Some p -> (forall v, V = JStr v -> ~ allowed p v) ->
        getVoiceForLanguage L V = Normal (JStr (default_voice p)))
  /\ (VOICE_CONFIG !! L = None ->
        exists en, VOICE_CONFIG !! "en-US" = Some en
                   /\ getVoiceForLanguage L V = Normal (JStr (default_voice en)))
  /\ (forall p, VOICE_CONFIG !! L = Some p ->
        getVoiceForLanguage L (JStr (default_voice p)) = Normal (JStr (default_voice p)))
  /\ (exists fi, VOICE_CONFIG !! "fi-FI" = Some fi
                 /\ ~ In (default_voice fi) (alternatives fi)).
Proof.
  intros Hproto.
  assert (Hyes : forall p v, VOICE_CONFIG !! L = Some p -> allowed p v ->
                   getVoiceForLanguage L (JStr v) = Normal (JStr v)).
  { intros p v Hp Hv. rewrite (getVoiceForLanguage_own L p _ Hp).
    pose proof (allowed_nonempty L p v Hp Hv) as Hne.
    apply allowed_dec in Hv. rewrite Hv. simpl.
    destruct (String.eqb_spec v ""); [contradiction | reflexivity]. }
  assert (Hno : forall p, VOICE_CONFIG !! L = Some p ->
                  (forall v, V = JStr v -> ~ allowed p v) ->
                  getVoiceForLanguage L V = Normal (JStr (default_voice p))).
  { intros p Hp Hv. rewrite (getVoiceForLanguage_own L p _ Hp).
    destruct (strict_eq_str V (default_voice p) || includes (alternatives p) V) eqn:E.
    - apply allowed_value in E. destruct E as (s & -> & Hs).
      exfalso. exact (Hv s eq_refl Hs).
    - rewrite andb_false_r. reflexivity. }
  repeat split.
  - destruct (VOICE_CONFIG !! L) as [p|] eqn:Hp.
    + destruct (strict_eq_str V (default_voice p) || includes (alternatives p) V) eqn:E.
      * apply allowed_value in E. destruct E as (s & -> & Hs).
        exists s. exact (Hyes p s eq_refl Hs).
      * exists (default_voice p). apply (Hno p eq_refl).
        intros v -> Hv. apply allowed_dec in Hv. congruence.
    + eexists. apply getVoiceForLanguage_missing; assumption.
  - intros p v Hp -> Hv. exact (Hyes p v Hp Hv).
  - exact Hno.
  - intros Hnone. eexists. split; [vm_compute; reflexivity|].
    apply getVoiceForLanguage_missing; assumption.
  - intros p Hp. apply (Hyes p _ Hp). left. reflexivity.
  - eexists. split; [vm_compute; reflexivity|]. simpl.
    intros H. repeat (destruct H as [H | H]; [discriminate H|]). exact H.
Qed.

(** ** The tool descriptor *)

(** C9. tools/list returns one tool descriptor, synthesize_speech; its
    schema requires sentence and language, bounds sentence to 1..1000
    characters, restricts language to the six supported codes (the keys
    of the voice table), and leaves voice a string with no restriction
    that is not required. *)
Theorem listTools_descriptor :
  exists tool sentence language voice,
    listTools = [tool]
    /\ Schema.name tool = "synthesize_speech"
    /\ Schema.required (Schema.inputSchema tool) = ["sentence"; "language"]
    /\ map fst (Schema.properties (Schema.inputSchema tool)) = ["sentence"; "language"; "voice"]
    /\ Schema.property_of (Schema.inputSchema tool) "sentence" = Some sentence
    /\ Schema.type sentence = "string"
    /\ Schema.minLength sentence = Some 1
    /\ Schema.maxLength sentence = Some 1000
    /\ Schema.property_of (Schema.inputSchema tool) "language" = Some language
    /\ Schema.type language = "string"
    /\ Schema.enum language = Some supportedLanguages
    /\ length supportedLanguages = 6
    /\ NoDup supportedLanguages
    /\ (forall L, In L supportedLanguages <-> exists p, VOICE_CONFIG !! L = Some p)
    /\ Schema.property_of (Schema.inputSchema tool) "voice" = Some voice
    /\ Schema.type voice = "string"
    /\ Schema.enum voice = None
    /\ Schema.minLength voice = None
    /\ Schema.maxLength voice = None
    /\ ~ In "voice" (Schema.required (Schema.inputSchema tool)).
Proof.
  do 4 eexists. unfold listTools.
  repeat match goal with |- _ /\ _ => split end; try reflexivity.
  - apply (bool_decide_unpack _). vm_compute. exact I.
  - exact VOICE_CONFIG_supported.
  - simpl. intuition discriminate.
Qed.

(** ** Requests *)

(** A request with no protocol-level fault calls the registered tool with
    a sentence that is a non-empty string and a supported language. *)
Lemma no_fault_arguments (req : request) :
  request_fault req = None ->
  exists args s l,
    req = tool_call args
    /\ args !! "sentence" = Some (JStr s) /\ s <> ""
    /\ args !! "language" = Some (JStr l) /\ In l supportedLanguages.
Proof.
  unfold request_fault. destruct req as [n a]. cbn [name arguments].
  destruct (String.eqb_spec n "synthesize_speech") as [-> | Hn]; [|discriminate].
  cbn [negb]. destruct a as [args|]; [|discriminate].
  destruct (well_formed (args !! "sentence")) eqn:Hs; [|discriminate].
  destruct (well_formed (args !! "language")) eqn:Hl; [|discriminate].
  cbn [negb].
  destruct (existsb _ supportedLanguages) eqn:Hin; [|discriminate].
  intros _.
  destruct (args !! "sentence") as [[| | | | s | |]|] eqn:Es; try discriminate Hs.
  destruct (args !! "language") as [[| | | | l | |]|] eqn:El; try discriminate Hl.
  exists args, s, l.
  assert (Hpl : prop args "language" = JStr l) by (unfold prop; rewrite El; reflexivity).
  rewrite Hpl in Hin. cbn [str_of] in Hin.
  split; [reflexivity|]. split; [exact Es|].
  split. { simpl in Hs. destruct (String.eqb_spec s ""); [discriminate | assumption]. }
  split; [exact El|].
  apply existsb_exists in Hin. destruct Hin as (x & Hx & Heq).
  apply String.eqb_eq in Heq. subst. assumption.
Qed.

(** The fallback of getVoiceForLanguage to en-US is out of the handler's
    reach: a request that passes validation names a language of the voice
    table, and the voice used is one its profile allows. *)
Theorem fallback_unreachable (req : request) :
  request_fault req = None ->
  exists args l p voice,
    arguments req = Some args
    /\ args !! "language" = Some (JStr l)
    /\ VOICE_CONFIG !! l = Some p
    /\ getVoiceForLanguage l (prop args "voice") = Normal (JStr voice)
    /\ allowed p voice.
Proof.
  intros H.
  destruct (no_fault_arguments req H) as (args & s & l & -> & _ & _ & Hl & Hin).
  apply VOICE_CONFIG_supported in Hin. destruct Hin as (p & Hp).
  pose proof (getVoiceForLanguage_own l p (prop args "voice") Hp) as Hg.
  destruct (truthy (prop args "voice")
            && (strict_eq_str (prop args "voice") (default_voice p)
                || includes (alternatives p) (prop args "voice"))) eqn:E.
  - apply andb_true_iff in E. destruct E as [_ E].
    apply allowed_value in E. destruct E as (voice & Ev & Hv).
    rewrite Ev in Hg. exists args, l, p, voice. rewrite Ev.
    repeat split; assumption || reflexivity.
  - exists args, l, p, (default_voice p).
    repeat split; try (assumption || reflexivity). left. reflexivity.
Qed.

(** ** The server in an arbitrary environment *)

Section Properties.

Variable process_env : gmap string string.
Variable path_resolve : string -> string -> string.
Variable Number_toString : number -> string.

Local Abbreviation synthesize := (synthesizeSpeech process_env path_resolve Number_toString).
Local Abbreviation handle := (callTool process_env path_resolve Number_toString).

(** ** Validation *)

Lemma handle_invalid_sentence (args : gmap string value) (w : world) :
  well_formed (args !! "sentence") = false ->
  handle (tool_call args) w = (Throw (invalid_parameter "sentence"), []).
Proof.
  intros H. unfold callTool, tool_call. cbn [name arguments].
  rewrite String.eqb_refl. cbn [negb]. cbv zeta.
  rewrite string_guard_well_formed, H. reflexivity.
Qed.

Lemma handle_invalid_language (args : gmap string value) (w : world) :
  well_formed (args !! "sentence") = true ->
  well_formed (args !! "language") = false ->
  handle (tool_call args) w = (Throw (invalid_parameter "language"), []).
Proof.
  intros Hs Hl. unfold callTool, tool_call. cbn [name arguments].
  rewrite String.eqb_refl. cbn [negb]. cbv zeta.
  rewrite !string_guard_well_formed, Hs, Hl. reflexivity.
Qed.

Lemma handle_unsupported (args : gmap string value) (w : world) :
  well_formed (args !! "sentence") = true ->
  well_formed (args !! "language") = true ->
  includes supportedLanguages (prop args "language") = false ->
  handle (tool_call args) w
  = (Throw (unsupported_language (str_of (prop args "language"))), []).
Proof.
  intros Hs Hl Hi. unfold callTool, tool_call. cbn [name arguments].
  rewrite String.eqb_refl. cbn [negb]. cbv zeta.
  rewrite !string_guard_well_formed, Hs, Hl, Hi. reflexivity.
Qed.

Lemma handle_valid (args : gmap string value) (w : world) :
  well_formed (args !! "sentence") = true ->
  well_formed (args !! "language") = true ->
  includes supportedLanguages (prop args "language") = true ->
  handle (tool_call args) w
  = match synthesize (str_of (prop args "sentence")) (str_of (prop args "language"))
            (prop args "voice") w with
    | (Resolved result, calls) =>
        (Normal (text_response (success_text Number_toString result)), calls)
    | (Rejected message, calls) => (Normal (text_response (failure_text message)), calls)
    end.
Proof.
  intros Hs Hl Hi. unfold callTool, tool_call. cbn [name arguments].
  rewrite String.eqb_refl. cbn [negb]. cbv zeta.
  rewrite !string_guard_well_formed, Hs, Hl, Hi. reflexivity.
Qed.

Lemma well_formed_falsy (v : value) :
  truthy v = false \/ typeof v <> "string" -> well_formed (Some v) = false.
Proof.
  intros H. destruct v; try reflexivity. simpl in *.
  destruct H as [H | H]; [|congruence].
  apply negb_false_iff in H. rewrite H. reflexivity.
Qed.

(** C10. A call of the tool whose sentence argument is present and falsy
    (the empty string among others) or not a string is answered like a
    call with no sentence argument at all: the handler throws the Error
    with the message Invalid or missing "sentence" parameter, and nothing
    is synthesized. *)
Theorem falsy_sentence_as_missing (args : gmap string value) (v : value) (w : world) :
  truthy v = false \/ typeof v <> "string" ->
  handle (tool_call (<["sentence" := v]> args)) w
    = (Throw (invalid_parameter "sentence"), [])
  /\ handle (tool_call (delete "sentence" args)) w
    = (Throw (invalid_parameter "sentence"), [])
  /\ message (invalid_parameter "sentence")
    = "Invalid or missing " +:+ dq +:+ "sentence" +:+ dq +:+ " parameter".
Proof.
  intros H. repeat split.
  - apply handle_invalid_sentence. rewrite lookup_insert_eq.
    apply well_formed_falsy. exact H.
  - apply handle_invalid_sentence. rewrite lookup_delete_eq. reflexivity.
Qed.

(** C8. A call of the tool whose language argument is a string outside
    the six supported codes is answered by a thrown error and no
    synthesis call; when the sentence argument passes its check and the
    language is not the empty string, the error's message names the
    language and lists the six supported codes. *)
Theorem unsupported_language_rejected (args : gmap string value) (L : string) (w : world) :
  args !! "language" = Some (JStr L) ->
  ~ In L supportedLanguages ->
  (exists e, handle (tool_call args) w = (Throw e, []))
  /\ (well_formed (args !! "sentence") = true -> L <> "" ->
      handle (tool_call args) w = (Throw (unsupported_language L), [])
      /\ message (unsupported_language L)
         = "Unsupported language: " +:+ L
             +:+ ". Supported languages: en-US, fi-FI, es-ES, de-DE, fr-FR, sv-SE").
Proof.
  intros HL Hout.
  assert (Hinc : includes supportedLanguages (prop args "language") = false).
  { unfold prop. rewrite HL. simpl default.
    destruct (includes supportedLanguages (JStr L)) eqn:E; [|reflexivity].
    apply includes_In in E. destruct E as (s & [= <-] & Hs). contradiction. }
  assert (Hmain : well_formed (args !! "sentence") = true -> L <> "" ->
                  handle (tool_call args) w = (Throw (unsupported_language L), [])).
  { intros Hs Hne.
    rewrite handle_unsupported; [| assumption | | assumption].
    - unfold prop. rewrite HL. reflexivity.
    - rewrite HL. simpl. destruct (String.eqb_spec L ""); [contradiction | reflexivity]. }
  split.
  - destruct (well_formed (args !! "sentence")) eqn:Hs.
    + destruct (String.eqb_spec L "") as [-> | Hne].
      * eexists. apply handle_invalid_language; [assumption|]. rewrite HL. reflexivity.
      * eexists. apply Hmain; [reflexivity | assumption].
    + eexists. apply handle_invalid_sentence. assumption.
  - intros Hs Hne. split; [apply Hmain; assumption | reflexivity].
Qed.

(** ** Synthesis *)

(** What a resolved promise tells about the call. *)
Lemma synthesize_resolved (s l : string) (v : value) (w : world) (r : resultObj)
    (calls : list event) :
  synthesize s l v w = (Resolved r, calls) ->
  exists selected result data,
    getVoiceForLanguage l v = Normal (JStr selected)
    /\ sdk_reply w = Sdk.Result result
    /\ Sdk.audioData result = Some data
    /\ data <> []
    /\ r = mkResultObj true (file_path process_env path_resolve l selected (now_iso w))
             (file_name l selected (now_iso w)) selected l s
             (compute_metrics Number_toString s (length (split_ws s))
                (end_time w - start_time w) (Sdk.audioDuration result))
    /\ calls = [ SpeakTextAsync s l selected;
                 WriteFileSync (file_path process_env path_resolve l selected (now_iso w)) data;
                 Close ].
Proof.
  unfold synthesizeSpeech.
  destruct (negb _ || negb _); [discriminate|].
  destruct (getVoiceForLanguage l v) as [selected | e]; [|discriminate].
  destruct (sdk_setup w); [discriminate|].
  destruct selected as [| | | | selected | |]; try discriminate.
  destruct (sdk_reply w) as [result | err]; [|discriminate].
  destruct (truthy_opt (Sdk.errorDetails result)); [discriminate|].
  unfold no_audio.
  destruct (Sdk.audioData result) as [data|] eqn:Hdata; [|discriminate].
  destruct (length data =? 0) eqn:Hlen; [discriminate|].
  destruct (write_error w); [discriminate|].
  intros [= <- <-]. exists selected, result, data.
  repeat match goal with |- _ /\ _ => split end; try reflexivity; try assumption.
  intros ->. discriminate Hlen.
Qed.

Lemma synthesize_no_credentials (s l : string) (v : value) (w : world) :
  credentials process_env = false -> synthesize s l v w = (Rejected credentials_message, []).
Proof.
  unfold credentials, synthesizeSpeech. intros H.
  rewrite <- negb_andb, H. reflexivity.
Qed.


(** A request with no protocol-level fault reaches synthesizeSpeech with
    its sentence and its language. *)
Lemma handle_no_fault (req : request) (w : world) :
  request_fault req = None ->
  exists args s l,
    req = tool_call args
    /\ args !! "sentence" = Some (JStr s) /\ s <> ""
    /\ args !! "language" = Some (JStr l) /\ In l supportedLanguages
    /\ handle req w
       = match synthesize s l (prop args "voice") w with
         | (Resolved result, calls) =>
             (Normal (text_response (success_text Number_toString result)), calls)
         | (Rejected message, calls) =>
             (Normal (text_response (failure_text message)), calls)
         end.
Proof.
  intros H. destruct (no_fault_arguments req H) as (args & s & l & -> & Es & Hs & El & Hl).
  exists args, s, l. repeat match goal with |- _ /\ _ => split end; try assumption.
  { reflexivity. }
  assert (Hps : prop args "sentence" = JStr s) by (unfold prop; rewrite Es; reflexivity).
  assert (Hpl : prop args "language" = JStr l) by (unfold prop; rewrite El; reflexivity).
  rewrite handle_valid.
  - rewrite Hps, Hpl. reflexivity.
  - rewrite Es. simpl. destruct (String.eqb_spec s ""); [contradiction | reflexivity].
  - rewrite El. simpl. destruct (String.eqb_spec l ""); [|reflexivity].
    subst. simpl in Hl. intuition discriminate.
  - rewrite Hpl. apply includes_In. eauto.
Qed.

Lemma no_audio_spec (result : Sdk.result) :
  no_audio result = true <->
  Sdk.audioData result = None \/ Sdk.audioData result = Some [].
Proof.
  unfold no_audio. destruct (Sdk.audioData result) as [[|b data]|]; simpl; split;
    intros H; auto; try discriminate H; destruct H as [H | H]; discriminate H.
Qed.

Lemma credentials_guard :
  negb (truthy_opt (AZURE_SPEECH_KEY process_env))
  || negb (truthy_str (AZURE_SPEECH_REGION process_env))
  = negb (credentials process_env).
Proof. unfold credentials. rewrite negb_andb. reflexivity. Qed.

(** Every rejection is one of the operational failures, and writes no
    file unless the write itself failed. *)
Lemma synthesize_rejected (s l : string) (v : value) (w : world) (m : string)
    (calls : list event) :
  synthesize s l v w = (Rejected m, calls) ->
  domain_failure process_env w m
  /\ (calls = []
      \/ (exists selected, calls = [SpeakTextAsync s l selected; Close])
      \/ (exists selected data,
            write_error w <> None
            /\ calls = [ SpeakTextAsync s l selected;
                         WriteFileSync (file_path process_env path_resolve l selected (now_iso w)) data;
                         Close ])).
Proof.
  unfold synthesizeSpeech. rewrite credentials_guard.
  destruct (credentials process_env) eqn:Hc; cbn [negb].
  2: { intros [= <- <-]. split; [constructor; assumption | left; reflexivity]. }
  destruct (getVoiceForLanguage l v) as [selected | e].
  2: { intros [= <- <-]. split; [constructor | left; reflexivity]. }
  destruct (sdk_setup w).
  { intros [= <- <-]. split; [constructor | left; reflexivity]. }
  destruct selected as [| | | | selected | |];
    try (intros [= <- <-]; split; [constructor | left; reflexivity]).
  destruct (sdk_reply w) as [result | err] eqn:Hreply.
  2: { intros [= <- <-]. split; [apply SynthesisError; assumption | right; left; eauto]. }
  destruct (truthy_opt (Sdk.errorDetails result)) eqn:Hd.
  { intros [= <- <-]. split; [|right; left; eauto].
    destruct (Sdk.errorDetails result) as [detail|] eqn:Hdetail; [|discriminate Hd].
    cbn [truthy_opt] in Hd. unfold truthy_str in Hd. simpl default.
    apply (SynthesisFailed _ _ result detail); [assumption | assumption |].
    destruct (String.eqb_spec detail ""); [discriminate Hd | assumption]. }
  destruct (no_audio result) eqn:Hna.
  { intros [= <- <-]. split; [|right; left; eauto].
    apply (EmptyAudio _ _ result); [assumption|]. apply no_audio_spec. exact Hna. }
  destruct (write_error w) as [detail|] eqn:Hw; [|discriminate].
  intros [= <- <-]. split; [apply WriteFailure; assumption|].
  right. right. do 2 eexists. split; [discriminate | reflexivity].
Qed.

Lemma truthy_or_else (a b : option string) :
  truthy_opt (or_else a b) = truthy_opt a || truthy_opt b.
Proof.
  destruct a as [s|]; simpl; [|reflexivity]. unfold truthy_str.
  destruct (String.eqb s "") eqn:E; simpl; [reflexivity|].
  unfold truthy_str. rewrite E. reflexivity.
Qed.

Lemma truthy_or_default (a : option string) (d : string) :
  truthy_str (or_default a d) = truthy_opt a || truthy_str d.
Proof.
  destruct a as [s|]; simpl; [|reflexivity]. unfold truthy_str.
  destruct (String.eqb s "") eqn:E; simpl; [reflexivity | rewrite E; reflexivity].
Qed.

(** The region never lacks: it falls back to westeurope. *)
Lemma region_configured : truthy_str (AZURE_SPEECH_REGION process_env) = true.
Proof.
  unfold AZURE_SPEECH_REGION. rewrite truthy_or_default. apply orb_true_r.
Qed.

Lemma credentials_key :
  credentials process_env
  = truthy_opt (process_env !! "AZURE_SPEECH_KEY")
    || truthy_opt (process_env !! "AZURE_SPEECH_KEY_FREE").
Proof.
  unfold credentials, AZURE_SPEECH_KEY.
  rewrite region_configured, truthy_or_else, andb_true_r. reflexivity.
Qed.


(** C7. When the SDK reports success (its result callback, no error
    details) with the audio absent or of zero bytes, synthesizeSpeech
    rejects and writes no file; once the SDK has been called, the
    rejection says that no audio data was produced and the calls are
    those of a synthesis the SDK failed outright.  The handler turns the
    rejection into the failure text, as it does for every failure. *)
Theorem empty_audio_is_failure (s l : string) (v : value) (w : world)
    (result : Sdk.result) :
  sdk_reply w = Sdk.Result result ->
  truthy_opt (Sdk.errorDetails result) = false ->
  Sdk.audioData result = None \/ Sdk.audioData result = Some [] ->
  (exists m, fst (synthesize s l v w) = Rejected m)
  /\ existsb is_write (snd (synthesize s l v w)) = false
  /\ (existsb is_speak (snd (synthesize s l v w)) = true ->
      fst (synthesize s l v w) = Rejected "Speech synthesis produced no audio data")
  /\ (forall err,
        snd (synthesize s l v (with_reply w (Sdk.Failure err))) = snd (synthesize s l v w))
  /\ (forall req, request_fault req = None ->
        exists m calls,
          handle req w = (Normal (text_response (failure_text m)), calls)
          /\ existsb is_write calls = false).
Proof.
  intros Hreply Hok Hempty. apply no_audio_spec in Hempty.
  assert (Hall : forall s l v,
            (exists m, fst (synthesize s l v w) = Rejected m)
            /\ existsb is_write (snd (synthesize s l v w)) = false
            /\ (existsb is_speak (snd (synthesize s l v w)) = true ->
                fst (synthesize s l v w) = Rejected "Speech synthesis produced no audio data")
            /\ (forall err,
                  snd (synthesize s l v (with_reply w (Sdk.Failure err)))
                  = snd (synthesize s l v w))).
  { clear s l v. intros s l v. unfold synthesizeSpeech, with_reply.
    cbn [sdk_reply sdk_setup now_iso start_time end_time write_error].
    rewrite Hreply.
    destruct (negb _ || negb _); [simpl; intuition (eauto; discriminate)|].
    destruct (getVoiceForLanguage l v) as [selected | e];
      [|simpl; intuition (eauto; discriminate)].
    destruct (sdk_setup w); [simpl; intuition (eauto; discriminate)|].
    destruct selected; try (simpl; intuition (eauto; discriminate)).
    rewrite Hok, Hempty. simpl. intuition eauto. }
  destruct (Hall s l v) as (H1 & H2 & H3 & H4).
  repeat match goal with |- _ /\ _ => split end; try assumption.
  intros req Hfault.
  destruct (handle_no_fault req w Hfault) as (args & s' & l' & _ & _ & _ & _ & _ & H).
  destruct (Hall s' l' (prop args "voice")) as ((m & Hm) & Hw & _).
  destruct (synthesize s' l' (prop args "voice") w) as [[r | m'] calls];
    simpl in Hm, Hw; [discriminate Hm|].
  exists m', calls. split; assumption.
Qed.


(** ** File names *)

Lemma replace_all_map (class : ascii -> bool) (c : ascii) (s : string) :
  replace_all class (String c EmptyString) s
  = map_chars (fun x => if class x then c else x) s.
Proof.
  unfold map_chars. induction s as [|a s IH]; [reflexivity|].
  cbn [replace_all list_ascii_of_string map string_of_list_ascii].
  rewrite IH. destruct (class a); reflexivity.
Qed.

Lemma substring_whole (s : string) (n : nat) :
  String.length s <= n -> substring 0 n s = s.
Proof.
  revert n. induction s as [|a s IH]; intros n Hn.
  - destruct n; reflexivity.
  - destruct n as [|n]; simpl in *; [lia|]. rewrite IH; [reflexivity | lia].
Qed.

(** [replace('-', '_')] rewrites the first hyphen and no other one. *)
Lemma replace_first_hyphen (a b : string) :
  forallb (fun c => negb (Ascii.eqb c hyphen)) (list_ascii_of_string a) = true ->
  replace_first "-" "_" (a +:+ "-" +:+ b) = a +:+ "_" +:+ b.
Proof.
  induction a as [|c a IH]; intros Ha.
  - change (replace_first "-" "_" (String "-" b) = String "_" b).
    cbn [replace_first String.prefix String.length].
    destruct (ascii_dec "-" "-") as [_ | E]; [|contradiction].
    replace (String.prefix "" b) with true by (destruct b; reflexivity).
    cbn [substring]. rewrite substring_whole; [reflexivity | lia].
  - cbn [list_ascii_of_string forallb] in Ha. apply andb_true_iff in Ha.
    destruct Ha as [Hc Ha]. apply negb_true_iff, Ascii.eqb_neq in Hc.
    change (replace_first "-" "_" (String c (a +:+ "-" +:+ b))
            = String c (a +:+ "_" +:+ b)).
    cbn [replace_first String.prefix].
    destruct (ascii_dec "-" c) as [E | _]; [exfalso; apply Hc; symmetry; exact E|].
    f_equal. apply IH. exact Ha.
Qed.

Lemma replace_first_supported (l : string) :
  In l supportedLanguages ->
  replace_first "-" "_" l
  = map_chars (fun c => if Ascii.eqb c hyphen then underscore else c) l.
Proof.
  intros H. simpl in H.
  repeat (destruct H as [<- | H]; [vm_compute; reflexivity|]). contradiction.
Qed.

(** C5. The file name of a successful synthesis is mcp-tts, a hyphen, the
    language code with its hyphen replaced by an underscore (the first
    hyphen, which is the only one of a supported code), a hyphen, the
    resolved voice with every character outside a-z, A-Z, 0-9 replaced by
    a hyphen, a hyphen, the ISO time stamp with every colon and period
    replaced by a hyphen, and .wav; the audio is written to that name in
    the output directory. *)
Theorem filename_convention (s l : string) (v : value) (w : world) (r : resultObj)
    (calls : list event) :
  synthesize s l v w = (Resolved r, calls) ->
  getVoiceForLanguage l v = Normal (JStr (voice r))
  /\ filename r
     = "mcp-tts" +:+ "-" +:+ replace_first "-" "_" l
         +:+ "-" +:+ map_chars (fun c => if alnum c then c else hyphen) (voice r)
         +:+ "-" +:+ map_chars (fun c => if colon_or_dot c then hyphen else c) (now_iso w)
         +:+ ".wav"
  /\ (In l supportedLanguages ->
      replace_first "-" "_" l
      = map_chars (fun c => if Ascii.eqb c hyphen then underscore else c) l)
  /\ (forall a b,
        forallb (fun c => negb (Ascii.eqb c hyphen)) (list_ascii_of_string a) = true ->
        l = a +:+ "-" +:+ b -> replace_first "-" "_" l = a +:+ "_" +:+ b)
  /\ audioFile r = path_resolve (AUDIO_OUTPUT_DIR process_env) (filename r)
  /\ (exists data, calls = [ SpeakTextAsync s l (voice r);
                             WriteFileSync (audioFile r) data;
                             Close ]).
Proof.
  intros H. apply synthesize_resolved in H.
  destruct H as (selected & result & data & Hvoice & _ & _ & _ & -> & ->).
  cbn [voice filename audioFile].
  split; [exact Hvoice|]. split.
  { assert (E1 : replace_all (fun c => negb (alnum c)) "-" selected
                 = map_chars (fun c => if alnum c then c else hyphen) selected).
    { change "-" with (String hyphen EmptyString). rewrite replace_all_map.
      unfold map_chars. f_equal. apply map_ext. intros c.
      destruct (alnum c); reflexivity. }
    assert (E2 : replace_all colon_or_dot "-" (now_iso w)
                 = map_chars (fun c => if colon_or_dot c then hyphen else c) (now_iso w)).
    { change "-" with (String hyphen EmptyString). apply replace_all_map. }
    unfold file_name. rewrite E1, E2. reflexivity. }
  split; [apply replace_first_supported|].
  split; [intros a b Ha ->; apply replace_first_hyphen; exact Ha|].
  split; [reflexivity|]. exists data. reflexivity.
Qed.

(** ** Metrics *)

Lemma sign_Gt (q : Q) : sign q = Gt <-> (0 < q)%Q.
Proof. unfold sign. rewrite <- Qgt_alt. reflexivity. Qed.

Lemma sign_Lt (q : Q) : sign q = Lt <-> (q < 0)%Q.
Proof. unfold sign. rewrite <- Qlt_alt. reflexivity. Qed.

Lemma div_pos (x y : Q) :
  (0 < y)%Q -> div (Fin x) (Fin y) = Fin (x / y).
Proof.
  intros H. apply sign_Gt in H. unfold div. rewrite H. reflexivity.
Qed.

Lemma Qdiv_nonneg (x y : Q) : (0 <= x)%Q -> (0 < y)%Q -> (0 <= x / y)%Q.
Proof.
  intros Hx Hy. unfold Qdiv. apply Qmult_le_0_compat; [exact Hx|].
  apply Qinv_le_0_compat, Qlt_le_weak, Hy.
Qed.

Lemma Qdiv_pos (x y : Q) : (0 < x)%Q -> (0 < y)%Q -> (0 < x / y)%Q.
Proof.
  intros Hx Hy. unfold Qdiv. apply Qmult_lt_0_compat; [exact Hx|].
  apply Qinv_lt_0_compat, Hy.
Qed.

Lemma Qdiv_nonpos (x y : Q) : (x <= 0)%Q -> (0 < y)%Q -> (x / y <= 0)%Q.
Proof.
  intros Hx Hy. unfold Qdiv.
  assert (H : (x * / y <= 0 * / y)%Q).
  { apply Qmult_le_compat_r; [exact Hx|]. apply Qinv_le_0_compat, Qlt_le_weak, Hy. }
  rewrite Qmult_0_l in H. exact H.
Qed.

Lemma inject_Z_pos (z : Z) : (0 < z)%Z -> (0 < inject_Z z)%Q.
Proof. intros H. change 0%Q with (inject_Z 0). rewrite <- Zlt_Qlt. exact H. Qed.

Lemma inject_Z_nonneg (z : Z) : (0 <= z)%Z -> (0 <= inject_Z z)%Q.
Proof. intros H. change 0%Q with (inject_Z 0). rewrite <- Zle_Qle. exact H. Qed.

(** The elapsed seconds and the characters per second of a positive
    duration. *)
Lemma characters_per_second (len : nat) (duration : Z) :
  (0 < duration)%Z ->
  div (of_nat len) (div (of_Z duration) (of_Z 1000))
  = Fin (inject_Z (Z.of_nat len) / (inject_Z duration / inject_Z 1000))
  /\ (0 <= inject_Z (Z.of_nat len) / (inject_Z duration / inject_Z 1000))%Q.
Proof.
  intros H. unfold of_nat, of_Z.
  assert (Hs : (0 < inject_Z duration / inject_Z 1000)%Q).
  { apply Qdiv_pos; [apply inject_Z_pos; exact H | reflexivity]. }
  rewrite (div_pos (inject_Z duration)); [|reflexivity].
  rewrite div_pos; [|exact Hs]. split; [reflexivity|].
  apply Qdiv_nonneg; [apply inject_Z_nonneg; lia | exact Hs].
Qed.

Lemma audioDuration_ms (s : string) (n : nat) (d : Z) (ticks : option Z) :
  exists q, audioDuration (compute_metrics Number_toString s n d ticks) = Fin q
            /\ (q == audio_ms ticks)%Q.
Proof.
  unfold compute_metrics, audio_ms. cbn [audioDuration].
  destruct ticks as [t|]; [|exists 0%Q; split; reflexivity].
  destruct (Z.eqb_spec t 0) as [-> | Ht].
  - exists 0%Q. split; reflexivity.
  - eexists. split; [apply div_pos; reflexivity | reflexivity].
Qed.

Lemma words_per_minute (s : string) (n : nat) (d : Z) (ticks : option Z) :
  (exists t, ticks = Some t /\ (0 < t)%Z
             /\ wordsPerMinute (compute_metrics Number_toString s n d ticks)
                = toFixed Number_toString
                    (Fin (inject_Z (Z.of_nat n)
                            / (inject_Z t / inject_Z 10000 / inject_Z 1000)
                            * inject_Z 60)) 2)
  \/ ((forall t, ticks = Some t -> (t <= 0)%Z)
      /\ wordsPerMinute (compute_metrics Number_toString s n d ticks) = "0.00").
Proof.
  unfold compute_metrics. cbn [wordsPerMinute].
  destruct ticks as [t|]; [|right; split; [discriminate | reflexivity]].
  destruct (Z.eqb_spec t 0) as [-> | Ht].
  { right. split; [intros t [= <-]; lia | reflexivity]. }
  assert (E1 : div (of_Z t) (of_Z 10000) = Fin (inject_Z t / inject_Z 10000))
    by (apply div_pos; reflexivity).
  assert (E2 : forall x, div (Fin x) (of_Z 1000) = Fin (x / inject_Z 1000))
    by (intros x; apply div_pos; reflexivity).
  rewrite E1, E2. unfold positive.
  destruct (sign (inject_Z t / inject_Z 10000 / inject_Z 1000)) eqn:Hsign.
  - right. split; [|reflexivity]. intros t' [= <-].
    destruct (Z.lt_ge_cases 0 t) as [Hpos | Hle]; [|lia].
    assert (Hq : (0 < inject_Z t / inject_Z 10000 / inject_Z 1000)%Q).
    { repeat apply Qdiv_pos; try reflexivity. apply inject_Z_pos. exact Hpos. }
    apply sign_Gt in Hq. congruence.
  - right. split; [|reflexivity]. intros t' [= <-].
    destruct (Z.lt_ge_cases 0 t) as [Hpos | Hle]; [|lia].
    assert (Hq : (0 < inject_Z t / inject_Z 10000 / inject_Z 1000)%Q).
    { repeat apply Qdiv_pos; try reflexivity. apply inject_Z_pos. exact Hpos. }
    apply sign_Gt in Hq. congruence.
  - left. exists t. split; [reflexivity|].
    assert (Hpos : (0 < t)%Z).
    { destruct (Z.lt_ge_cases 0 t) as [Hpos | Hle]; [exact Hpos|]. exfalso.
      apply sign_Gt in Hsign.
      assert (Hq : (inject_Z t / inject_Z 10000 / inject_Z 1000 <= 0)%Q).
      { repeat apply Qdiv_nonpos; try reflexivity.
        change 0%Q with (inject_Z 0). rewrite <- Zle_Qle. lia. }
      apply (Qlt_not_le _ _ Hsign Hq). }
    split; [exact Hpos|].
    unfold of_nat, of_Z. rewrite div_pos; [reflexivity | apply sign_Gt; exact Hsign].
Qed.

Lemma digit_is_digit (d : Z) : (0 <= d < 10)%Z -> is_digit (digit d) = true.
Proof.
  intros H.
  assert (E : (d = 0 \/ d = 1 \/ d = 2 \/ d = 3 \/ d = 4 \/ d = 5 \/ d = 6
               \/ d = 7 \/ d = 8 \/ d = 9)%Z) by lia.
  repeat (destruct E as [-> | E]; [reflexivity|]). subst. reflexivity.
Qed.

Lemma uint_digits (u : Decimal.uint) :
  forallb is_digit (list_ascii_of_string (NilEmpty.string_of_uint u)) = true.
Proof. induction u; simpl; auto. Qed.

Lemma decimal_digits (n : Z) :
  exists c rest, decimal n = String c rest
                 /\ forallb is_digit (c :: list_ascii_of_string rest) = true.
Proof.
  unfold decimal, NilZero.string_of_uint.
  pose proof (uint_digits (N.to_uint (Z.to_N n))) as H.
  destruct (N.to_uint (Z.to_N n)); simpl in *; eauto.
Qed.

Lemma list_ascii_app (a b : string) :
  list_ascii_of_string (a +:+ b) = list_ascii_of_string a ++ list_ascii_of_string b.
Proof. induction a as [|c a IH]; simpl; [reflexivity | rewrite IH; reflexivity]. Qed.

Lemma fixed2_shape (int : string) (d1 d0 : ascii) :
  int <> "" ->
  forallb is_digit (list_ascii_of_string int) = true ->
  is_digit d1 = true -> is_digit d0 = true ->
  fixed2 (int +:+ "." +:+ String d1 (String d0 "")) = true.
Proof.
  intros Hne Hint H1 H0. unfold fixed2.
  rewrite list_ascii_app.
  change (list_ascii_of_string ("." +:+ String d1 (String d0 "")))
    with ["."%char; d1; d0].
  rewrite rev_app_distr. cbn [rev app].
  destruct (rev (list_ascii_of_string int)) as [|x xs] eqn:E.
  - exfalso. apply Hne. destruct int; [reflexivity|].
    apply (f_equal (@length ascii)) in E. rewrite length_rev in E. discriminate E.
  - rewrite H0, H1. cbn [andb].
    assert (Hall : forallb is_digit (x :: xs) = true).
    { rewrite <- E. apply forallb_forall. intros y Hy.
      apply in_rev in Hy. rewrite forallb_forall in Hint. apply Hint. exact Hy. }
    cbn [forallb] in Hall. apply andb_true_iff in Hall. destruct Hall as [-> ->].
    reflexivity.
Qed.

(** Below 10^21 a non-negative number prints in decimal notation with
    two places. *)
Lemma toFixed_fixed2 (c : Q) :
  (0 <= c)%Q -> (c < inject_Z (10 ^ 21))%Q ->
  fixed2 (toFixed Number_toString (Fin c) 2) = true.
Proof.
  intros Hpos Hlt. unfold toFixed.
  destruct (Qle_bool (inject_Z (10 ^ 21)) (Qabs c)) eqn:Hbig.
  { exfalso. apply Qle_bool_iff in Hbig. rewrite (Qabs_pos c Hpos) in Hbig.
    exact (Qlt_not_le _ _ Hlt Hbig). }
  assert (Hsign : match sign c with Lt => "-" | _ => "" end = "").
  { destruct (sign c) eqn:E; try reflexivity.
    apply sign_Lt in E. exfalso. exact (Qlt_not_le _ _ E Hpos). }
  rewrite Hsign.
  set (n := round_half_up (Qabs c * inject_Z (10 ^ Z.of_nat 2))).
  change (10 ^ Z.of_nat 2)%Z with 100%Z.
  destruct (decimal_digits (n / 100)) as (x & rest & -> & Hd).
  change ("" +:+ String x rest +:+ "." +:+ frac_digits 2 (n mod 100))
    with (String x rest +:+ "." +:+ String (digit ((n mod 100) / 10 mod 10))
                                      (String (digit ((n mod 100) mod 10)) "")).
  apply fixed2_shape.
  - discriminate.
  - exact Hd.
  - apply digit_is_digit, Z.mod_pos_bound. lia.
  - apply digit_is_digit, Z.mod_pos_bound. lia.
Qed.

Lemma zero_toFixed : "0.00" = toFixed Number_toString (Fin 0) 2.
Proof. reflexivity. Qed.

Lemma split_go_length (b : bool) (s : string) :
  1 <= length (split_go b s) <= S (String.length s).
Proof.
  revert b. induction s as [|c s IH]; intros b; cbn [split_go String.length].
  - simpl. lia.
  - destruct (white_space c).
    + destruct b; [specialize (IH true) | specialize (IH true); cbn [length]]; lia.
    + specialize (IH false). destruct (split_go false s); simpl in *; lia.
Qed.

Lemma cps_bound (len : nat) (duration : Z) :
  (0 < duration)%Z -> (Z.of_nat len < 10 ^ 12)%Z ->
  (inject_Z (Z.of_nat len) / (inject_Z duration / inject_Z 1000) < inject_Z (10 ^ 21))%Q.
Proof.
  intros Hd Hl.
  assert (HD : (1 <= inject_Z duration)%Q).
  { change 1%Q with (inject_Z 1). rewrite <- Zle_Qle. lia. }
  assert (HL : (inject_Z (Z.of_nat len) < inject_Z (10 ^ 12))%Q).
  { rewrite <- Zlt_Qlt. exact Hl. }
  apply Qlt_shift_div_r.
  - apply Qdiv_pos; [apply inject_Z_pos; exact Hd | reflexivity].
  - unfold Qdiv. change (/ inject_Z 1000)%Q with (1 # 1000)%Q.
    change (inject_Z (10 ^ 21)) with (1000000000000000000000 # 1)%Q.
    change (inject_Z (10 ^ 12)) with (1000000000000 # 1)%Q in HL.
    lra.
Qed.

Lemma wpm_bound (n : nat) (t : Z) :
  (0 < t)%Z -> (Z.of_nat n <= 10 ^ 12)%Z ->
  (inject_Z (Z.of_nat n) / (inject_Z t / inject_Z 10000 / inject_Z 1000) * inject_Z 60
   < inject_Z (10 ^ 21))%Q.
Proof.
  intros Ht Hn.
  assert (HT : (1 <= inject_Z t)%Q).
  { change 1%Q with (inject_Z 1). rewrite <- Zle_Qle. lia. }
  assert (HN : (inject_Z (Z.of_nat n) <= inject_Z (10 ^ 12))%Q).
  { rewrite <- Zle_Qle. exact Hn. }
  assert (H : (inject_Z (Z.of_nat n) / (inject_Z t / inject_Z 10000 / inject_Z 1000)
               < 16666666666666666666 # 1)%Q).
  { apply Qlt_shift_div_r.
    - repeat apply Qdiv_pos; try reflexivity. apply inject_Z_pos. exact Ht.
    - unfold Qdiv. change (/ inject_Z 1000)%Q with (1 # 1000)%Q.
      change (/ inject_Z 10000)%Q with (1 # 10000)%Q.
      change (inject_Z (10 ^ 12)) with (1000000000000 # 1)%Q in HN.
      lra. }
  change (inject_Z (10 ^ 21)) with (1000000000000000000000 # 1)%Q.
  change (inject_Z 60) with (60 # 1)%Q.
  set (y := (inject_Z (Z.of_nat n) / (inject_Z t / inject_Z 10000 / inject_Z 1000))%Q) in *.
  lra.
Qed.

(** C4. In the result of a successful synthesis charactersPerSecond and
    wordsPerMinute are toFixed(2) of a finite number that is not
    negative (never of Infinity or NaN): 0.00 when the elapsed time is
    zero (or negative), 0.00 when the SDK reports an audio duration of
    zero or none; for a sentence of fewer than 10^12 characters both are
    written as digits, a period and two digits. *)
Theorem metrics_finite_nonnegative (s l : string) (v : value) (w : world)
    (r : resultObj) (calls : list event) :
  synthesize s l v w = (Resolved r, calls) ->
  (exists c, (0 <= c)%Q
     /\ charactersPerSecond (result_metrics r) = toFixed Number_toString (Fin c) 2)
  /\ (exists q, (0 <= q)%Q
     /\ wordsPerMinute (result_metrics r) = toFixed Number_toString (Fin q) 2)
  /\ synthesisTime (result_metrics r) = (end_time w - start_time w)%Z
  /\ ((end_time w - start_time w <= 0)%Z ->
      charactersPerSecond (result_metrics r) = "0.00")
  /\ (exists result, sdk_reply w = Sdk.Result result
        /\ (exists q, audioDuration (result_metrics r) = Fin q
                      /\ (q == audio_ms (Sdk.audioDuration result))%Q)
        /\ (Sdk.audioDuration result = None \/ Sdk.audioDuration result = Some 0%Z ->
            wordsPerMinute (result_metrics r) = "0.00"))
  /\ ((Z.of_nat (String.length s) < 10 ^ 12)%Z ->
      fixed2 (charactersPerSecond (result_metrics r)) = true
      /\ fixed2 (wordsPerMinute (result_metrics r)) = true).
Proof.
  intros H. apply synthesize_resolved in H.
  destruct H as (selected & result & data & _ & Hreply & _ & _ & -> & _).
  cbn [result_metrics].
  set (n := length (split_ws s)).
  set (d := (end_time w - start_time w)%Z).
  set (ticks := Sdk.audioDuration result).
  assert (Hn : (Z.of_nat n <= Z.of_nat (String.length s) + 1)%Z).
  { pose proof (split_go_length false s) as Hs. unfold n, split_ws. lia. }
  assert (Hcps : charactersPerSecond (compute_metrics Number_toString s n d ticks)
                 = if (0 <? d)%Z
                   then toFixed Number_toString
                          (div (of_nat (String.length s)) (div (of_Z d) (of_Z 1000))) 2
                   else "0.00") by reflexivity.
  repeat match goal with |- _ /\ _ => split end.
  - rewrite Hcps. destruct (Z.ltb_spec 0 d) as [Hd | Hd].
    + destruct (characters_per_second (String.length s) d Hd) as (-> & Hc). eauto.
    + exists 0%Q. split; [apply Qle_refl | apply zero_toFixed].
  - destruct (words_per_minute s n d ticks) as [(t & -> & Ht & ->) | (_ & ->)].
    + eexists. split; [|reflexivity].
      apply Qmult_le_0_compat; [|discriminate].
      apply Qdiv_nonneg; [apply inject_Z_nonneg; lia|].
      repeat apply Qdiv_pos; try reflexivity. apply inject_Z_pos. exact Ht.
    + exists 0%Q. split; [apply Qle_refl | apply zero_toFixed].
  - reflexivity.
  - intros Hd. rewrite Hcps. destruct (Z.ltb_spec 0 d); [lia | reflexivity].
  - exists result. split; [exact Hreply|]. split; [apply audioDuration_ms|].
    intros Hz. destruct (words_per_minute s n d ticks) as [(t & Et & Ht & _) | (_ & E)];
      [|exact E].
    fold ticks in Hz. destruct Hz as [Hz | Hz]; rewrite Hz in Et; [discriminate|].
    injection Et as <-. lia.
  - intros Hlen. split.
    + rewrite Hcps. destruct (Z.ltb_spec 0 d) as [Hd | Hd]; [|reflexivity].
      destruct (characters_per_second (String.length s) d Hd) as (-> & Hc).
      apply toFixed_fixed2; [exact Hc | apply cps_bound; assumption].
    + destruct (words_per_minute s n d ticks) as [(t & Et & Ht & ->) | (_ & ->)];
        [|reflexivity].
      apply toFixed_fixed2.
      * apply Qmult_le_0_compat; [|discriminate].
        apply Qdiv_nonneg; [apply inject_Z_nonneg; lia|].
        repeat apply Qdiv_pos; try reflexivity. apply inject_Z_pos. exact Ht.
      * apply wpm_bound; [exact Ht | lia].
Qed.

(** ** Calls *)

(** A synthesis calls the SDK at most once and writes at most one file; a
    resolved one does each once. *)
Theorem single_synthesis_call (s l : string) (v : value) (w : world) :
  length (List.filter is_speak (snd (synthesize s l v w))) <= 1
  /\ length (List.filter is_write (snd (synthesize s l v w))) <= 1
  /\ (forall r, fst (synthesize s l v w) = Resolved r ->
        length (List.filter is_speak (snd (synthesize s l v w))) = 1
        /\ length (List.filter is_write (snd (synthesize s l v w))) = 1).
Proof.
  destruct (synthesize s l v w) as [[r | m] calls] eqn:E; cbn [fst snd].
  - apply synthesize_resolved in E.
    destruct E as (selected & result & data & _ & _ & _ & _ & _ & ->).
    cbn. repeat split; lia.
  - apply synthesize_rejected in E.
    destruct E as (_ & [-> | [(selected & ->) | (selected & data & _ & ->)]]);
      cbn; repeat split; try lia; discriminate.
Qed.

End Properties.

(** ** The properties at the sample inputs *)

Lemma sample_synthesis :
  synthesizeSpeech sample_env sample_resolve sample_toString
    "Hello, this is a test." "en-US" JUndefined sample_world
  = (Resolved sample_result, sample_calls).
Proof. vm_compute. reflexivity. Qed.

Lemma getVoiceForLanguage_resolves_witness :
  getVoiceForLanguage "fi-FI" (JStr "fi-FI-SelmaNeural") = Normal (JStr "fi-FI-SelmaNeural")
  /\ getVoiceForLanguage "xx-XX" (JStr "fi-FI-SelmaNeural")
     = Normal (JStr "en-US-RyanMultilingualNeural").
Proof.
  split.
  - destruct (getVoiceForLanguage_resolves "fi-FI" (JStr "fi-FI-SelmaNeural") eq_refl)
      as (_ & H & _).
    apply (H (mkProfile "en-US-RyanMultilingualNeural"
                ["en-US-JennyMultilingualNeural"; "fi-FI-SelmaNeural";
                 "fi-FI-NooraNeural"; "fi-FI-HarriNeural"]) "fi-FI-SelmaNeural").
    + vm_compute. reflexivity.
    + reflexivity.
    + right. simpl. tauto.
  - destruct (getVoiceForLanguage_resolves "xx-XX" (JStr "fi-FI-SelmaNeural") eq_refl)
      as (_ & _ & _ & H & _).
    destruct H as (en & Hen & ->); [vm_compute; reflexivity|].
    vm_compute in Hen. injection Hen as <-. reflexivity.
Defined.

(** Outside the language codes: a name inherited from Object.prototype
    finds that member instead of a profile. *)
Example getVoiceForLanguage_inherited_name :
  getVoiceForLanguage "constructor" (JStr "en-US-RyanMultilingualNeural")
  = Throw (mkError TypeError "Cannot read properties of undefined (reading 'includes')")
  /\ getVoiceForLanguage "constructor" JNull = Normal JUndefined.
Proof. split; reflexivity. Qed.

(** The name constructor has no profile, and getVoiceForLanguage neither
    returns the default voice of en-US for it nor refrains from throwing:
    with a requested voice it throws a TypeError, without one it returns
    undefined. *)
Lemma getVoiceForLanguage_inherited_raises :
  VOICE_CONFIG !! "constructor" = None
  /\ getVoiceForLanguage "xx-XX" (JStr "en-US-JennyMultilingualNeural")
     = Normal (JStr "en-US-RyanMultilingualNeural")
  /\ getVoiceForLanguage "constructor" (JStr "en-US-JennyMultilingualNeural")
     = Throw (mkError TypeError (cannot_read "includes"))
  /\ getVoiceForLanguage "constructor" JUndefined = Normal JUndefined.
Proof. repeat split; vm_compute; reflexivity. Qed.

Lemma falsy_sentence_as_missing_witness :
  callTool sample_env sample_resolve sample_toString
    (tool_call (<["sentence" := JStr ""]> sample_args)) sample_world
  = (Throw (invalid_parameter "sentence"), [])
  /\ callTool sample_env sample_resolve sample_toString
       (tool_call (delete "sentence" sample_args)) sample_world
     = (Throw (invalid_parameter "sentence"), []).
Proof.
  destruct (falsy_sentence_as_missing sample_env sample_resolve sample_toString
              sample_args (JStr "") sample_world) as (H1 & H2 & _).
  - left. reflexivity.
  - split; assumption.
Defined.

Lemma unsupported_language_rejected_witness :
  callTool sample_env sample_resolve sample_toString
    (tool_call (<["language" := JStr "xx-XX"]> sample_args)) sample_world
  = (Throw (mkError Error
              "Unsupported language: xx-XX. Supported languages: en-US, fi-FI, es-ES, de-DE, fr-FR, sv-SE"),
     []).
Proof.
  destruct (unsupported_language_rejected sample_env sample_resolve sample_toString
              (<["language" := JStr "xx-XX"]> sample_args) "xx-XX" sample_world)
    as (_ & H).
  - vm_compute. reflexivity.
  - simpl. intuition discriminate.
  - destruct H as (H & _); [vm_compute; reflexivity | discriminate | exact H].
Defined.

(** C8 without its proviso: the language is unsupported and the sentence
    is missing; the error is the one about the sentence, and its message
    names neither the language nor the supported set. *)
Lemma unsupported_language_without_sentence :
  callTool sample_env sample_resolve sample_toString
    (tool_call {[ "language" := JStr "xx-XX" ]}) sample_world
  = (Throw (invalid_parameter "sentence"), [])
  /\ String.index 0 "xx-XX" (message (invalid_parameter "sentence")) = None
  /\ String.index 0 "en-US" (message (invalid_parameter "sentence")) = None.
Proof. repeat split; vm_compute; reflexivity. Qed.


Lemma empty_audio_is_failure_witness :
  fst (synthesizeSpeech sample_env sample_resolve sample_toString
         "Hello, this is a test." "en-US" JUndefined silent_world)
  = Rejected "Speech synthesis produced no audio data".
Proof.
  destruct (empty_audio_is_failure sample_env sample_resolve sample_toString
              "Hello, this is a test." "en-US" JUndefined silent_world
              (Sdk.mkResult None (Some []) (Some 0%Z)) eq_refl eq_refl
              (or_intror eq_refl)) as (_ & _ & H & _).
  apply H. vm_compute. reflexivity.
Defined.

Lemma filename_convention_witness :
  filename sample_result
  = "mcp-tts-en_US-en-US-RyanMultilingualNeural-2025-08-17T16-30-45-123Z.wav".
Proof.
  destruct (filename_convention sample_env sample_resolve sample_toString _ _ _ _ _ _
              sample_synthesis) as (_ & H & _).
  rewrite H. vm_compute. reflexivity.
Defined.

Lemma metrics_finite_nonnegative_witness :
  fixed2 (charactersPerSecond (result_metrics sample_result)) = true
  /\ fixed2 (wordsPerMinute (result_metrics sample_result)) = true.
Proof.
  destruct (metrics_finite_nonnegative sample_env sample_resolve sample_toString
              _ _ _ _ _ _ sample_synthesis) as (_ & _ & _ & _ & _ & H).
  apply H. vm_compute. reflexivity.
Defined.

Lemma fallback_unreachable_witness :
  exists p voice,
    VOICE_CONFIG !! "en-US" = Some p
    /\ getVoiceForLanguage "en-US" JUndefined = Normal (JStr voice)
    /\ allowed p voice.
Proof.
  destruct (fallback_unreachable (tool_call sample_args)) as
    (args & l & p & voice & Ha & Hl & Hp & Hv & Hal); [vm_compute; reflexivity|].
  injection Ha as <-. vm_compute in Hl. injection Hl as <-.
  exists p, voice. auto.
Defined.

(** Without the guards the quotients are not numbers a client can read. *)
Example unguarded_division :
  toFixed sample_toString (div (of_nat 22) (div (of_Z 0) (of_Z 1000))) 2 = "Infinity"
  /\ toFixed sample_toString (mul (div (of_nat 0) (of_Z 0)) (of_Z 60)) 2 = "NaN".
Proof. split; reflexivity. Qed.

Example sample_metrics :
  charactersPerSecond (result_metrics sample_result) = "88.00"
  /\ wordsPerMinute (result_metrics sample_result) = "243.01"
  /\ wordCount (result_metrics sample_result) = 5.
Proof. repeat split; reflexivity. Qed.

(** C3. A sentence of 1001 characters passes the handler's validation:
    the handler throws nothing, hands the sentence to the SDK and answers
    with a normal response.  The empty sentence is turned away, with the
    error for an invalid or missing sentence. *)
Theorem long_sentence_is_synthesized :
  String.length long_sentence = 1001
  /\ request_fault long_request = None
  /\ is_normal (fst (callTool sample_env sample_resolve sample_toString
                       long_request sample_world)) = true
  /\ List.filter is_speak (snd (callTool sample_env sample_resolve sample_toString
                             long_request sample_world))
     = [SpeakTextAsync long_sentence "en-US" "en-US-RyanMultilingualNeural"]
  /\ callTool sample_env sample_resolve sample_toString
       (tool_call (<["sentence" := JStr ""]> sample_args)) sample_world
     = (Throw (invalid_parameter "sentence"), []).
Proof. repeat split; vm_compute; reflexivity. Qed.

(** ** Voice resolution, once more *)

(** Resolving the voice that getVoiceForLanguage returned returns it
    again. *)
Theorem getVoiceForLanguage_idempotent (L : string) (V r : value) :
  getVoiceForLanguage L V = Normal r ->
  getVoiceForLanguage L r = Normal r.
Proof.
  unfold getVoiceForLanguage, VOICE_CONFIG_at.
  destruct (VOICE_CONFIG !! L) as [p|] eqn:Hp.
  - assert (Hd : getVoiceForLanguage L (JStr (default_voice p))
                 = Normal (JStr (default_voice p))).
    { rewrite (getVoiceForLanguage_own L p _ Hp).
      assert (Ha : allowed p (default_voice p)) by (left; reflexivity).
      pose proof (allowed_nonempty L p _ Hp Ha) as Hne.
      apply allowed_dec in Ha. rewrite Ha. simpl.
      destruct (String.eqb_spec (default_voice p) ""); [contradiction | reflexivity]. }
    rewrite (getVoiceForLanguage_own L p _ Hp) in Hd.
    destruct (truthy V && _) eqn:E.
    + intros [= <-]. rewrite E. reflexivity.
    + intros [= <-]. exact Hd.
  - destruct (inherited L).
    + destruct (truthy V); [discriminate|]. intros [= <-]. reflexivity.
    + intros H. vm_compute in H. injection H as <-. reflexivity.
Qed.

(** ** Words *)

Lemma cons_head_concat (c : ascii) (l : list string) :
  l <> [] ->
  concat (map list_ascii_of_string (cons_head c l))
  = c :: concat (map list_ascii_of_string l).
Proof. destruct l; [contradiction | reflexivity]. Qed.

Lemma split_go_nonempty (b : bool) (s : string) : split_go b s <> [].
Proof.
  revert b. induction s as [|c s IH]; intros b; cbn [split_go]; [discriminate|].
  destruct (white_space c).
  - destruct b; [apply IH | discriminate].
  - specialize (IH false). destruct (split_go false s); [contradiction | discriminate].
Qed.

Lemma split_go_spec (b : bool) (s : string) :
  forallb (all_chars (fun c => negb (white_space c))) (split_go b s) = true
  /\ concat (map list_ascii_of_string (split_go b s))
     = List.filter (fun c => negb (white_space c)) (list_ascii_of_string s).
Proof.
  revert b. induction s as [|c s IH]; intros b; cbn [split_go list_ascii_of_string List.filter].
  - split; reflexivity.
  - destruct (white_space c) eqn:Hc; cbn [negb].
    + destruct b; [apply IH|]. destruct (IH true) as [H1 H2].
      split; [cbn; exact H1 | exact H2].
    + destruct (IH false) as [H1 H2]. split.
      * pose proof (split_go_nonempty false s) as Hne.
        destruct (split_go false s) as [|w ws]; [contradiction|].
        cbn [cons_head forallb] in *. apply andb_true_iff in H1. destruct H1 as [Hw Hws].
        rewrite Hws, andb_true_r. unfold all_chars in *.
        cbn [list_ascii_of_string forallb]. rewrite Hc, Hw. reflexivity.
      * rewrite cons_head_concat by apply split_go_nonempty. rewrite H2. reflexivity.
Qed.

(** The words of [sentence.split(/\s+/)] hold no white space, spell the
    sentence without its white space, and are at least one and at most
    one more than the sentence has characters. *)
Theorem split_ws_words (s : string) :
  forallb (all_chars (fun c => negb (white_space c))) (split_ws s) = true
  /\ concat (map list_ascii_of_string (split_ws s))
     = List.filter (fun c => negb (white_space c)) (list_ascii_of_string s)
  /\ 1 <= length (split_ws s) <= S (String.length s).
Proof.
  destruct (split_go_spec false s) as [H1 H2].
  split; [exact H1|]. split; [exact H2|]. apply split_go_length.
Qed.

Lemma split_go_no_space (s : string) :
  all_chars (fun c => negb (white_space c)) s = true -> split_go false s = [s].
Proof.
  unfold all_chars. induction s as [|c s IH]; [reflexivity|].
  cbn [list_ascii_of_string forallb split_go]. intros H.
  apply andb_true_iff in H. destruct H as [Hc Hs].
  apply negb_true_iff in Hc. rewrite Hc, (IH Hs). reflexivity.
Qed.

Lemma split_go_run (b : bool) (a : string) (c d : ascii) (s : string) :
  white_space c = true -> white_space d = true ->
  split_go b (a +:+ String c (String d s)) = split_go b (a +:+ String c s).
Proof.
  intros Hc Hd. revert b. induction a as [|x a IH]; intros b.
  - change (split_go b (String c (String d s)) = split_go b (String c s)).
    cbn [split_go]. rewrite Hc, Hd. reflexivity.
  - change (split_go b (String x (a +:+ String c (String d s)))
            = split_go b (String x (a +:+ String c s))).
    cbn [split_go]. rewrite !IH. reflexivity.
Qed.

(** Edges of the word count: a sentence without white space is one word,
    the empty sentence too; white space in front of a sentence adds an
    empty word; a second white-space character in a row changes nothing. *)
Theorem split_ws_edges :
  (forall s, all_chars (fun c => negb (white_space c)) s = true -> split_ws s = [s])
  /\ (forall c d s, white_space c = true -> white_space d = false ->
        split_ws (String c (String d s)) = EmptyString :: split_ws (String d s))
  /\ (forall a c d s, white_space c = true -> white_space d = true ->
        split_ws (a +:+ String c (String d s)) = split_ws (a +:+ String c s)).
Proof.
  split; [exact split_go_no_space|]. split.
  - intros c d s Hc Hd. unfold split_ws. cbn [split_go]. rewrite Hc, Hd. reflexivity.
  - intros a c d s Hc Hd. apply split_go_run; assumption.
Qed.

(** ** createSSML *)

Lemma trim_end_app (a b : string) :
  trim_end b = b /\ b <> "" -> trim_end (a +:+ b) = a +:+ b /\ a +:+ b <> "".
Proof.
  intros [Hb Hne]. induction a as [|c a [IH Hn]].
  - split; assumption.
  - change (String c a +:+ b) with (String c (a +:+ b)).
    split; [|discriminate]. cbn [trim_end]. rewrite IH.
    destruct (a +:+ b); [contradiction | reflexivity].
Qed.

Lemma prefix_append (n b : string) : String.prefix n (n +:+ b) = true.
Proof.
  induction n as [|c n IH]; [destruct b; reflexivity|].
  change (String c n +:+ b) with (String c (n +:+ b)). cbn [String.prefix].
  destruct (ascii_dec c c); [exact IH | contradiction].
Qed.

Lemma prefix_app_l (n a b : string) :
  String.prefix n a = true -> String.prefix n (a +:+ b) = true.
Proof.
  revert a. induction n as [|c n IH]; intros a H; [destruct (a +:+ b); reflexivity|].
  destruct a as [|x a]; [discriminate H|].
  change (String x a +:+ b) with (String x (a +:+ b)). cbn [String.prefix] in *.
  destruct (ascii_dec c x); [apply IH; exact H | discriminate H].
Qed.

Lemma str_includes_self (n : string) : str_includes n n = true.
Proof.
  assert (H : String.prefix n n = true).
  { induction n as [|c n IH]; [reflexivity|]. cbn [String.prefix].
    destruct (ascii_dec c c); [exact IH | contradiction]. }
  destruct n; cbn [str_includes]; rewrite H; reflexivity.
Qed.

Lemma str_includes_here (n b : string) : str_includes (n +:+ b) n = true.
Proof. destruct (n +:+ b) eqn:E; cbn [str_includes]; rewrite <- E, prefix_append; reflexivity. Qed.

Lemma str_includes_app_r (a b n : string) :
  str_includes b n = true -> str_includes (a +:+ b) n = true.
Proof.
  intros H. induction a as [|c a IH]; [exact H|].
  change (String c a +:+ b) with (String c (a +:+ b)). cbn [str_includes].
  rewrite IH. destruct (String.prefix n (String c (a +:+ b))); reflexivity.
Qed.

Lemma str_includes_app_l (a b n : string) :
  str_includes a n = true -> str_includes (a +:+ b) n = true.
Proof.
  induction a as [|c a IH]; intros H.
  - cbn [str_includes] in H. destruct (String.prefix n "") eqn:E; [|discriminate H].
    destruct ("" +:+ b) eqn:Eb; cbn [str_includes]; rewrite <- Eb;
      rewrite (prefix_app_l n "" b E); reflexivity.
  - change (String c a +:+ b) with (String c (a +:+ b)). cbn [str_includes] in *.
    destruct (String.prefix n (String c a)) eqn:E.
    + change (String c (a +:+ b)) with (String c a +:+ b).
      rewrite (prefix_app_l n _ b E). reflexivity.
    + rewrite (IH H). destruct (String.prefix n (String c (a +:+ b))); reflexivity.
Qed.

(** createSSML returns the template from its speak tag to the end of its
    closing tag: trim takes the line break in front and nothing else,
    whatever the arguments hold.  The text stands in the result as it is,
    with no escaping, and an omitted rate or pitch is 1.0 or 0%. *)
Theorem createSSML_trimmed (text voice language : string) (rate pitch : option string) :
  createSSML text voice language rate pitch
  = lines (ssml_lines text voice language (default "1.0" rate) (default "0%" pitch))
  /\ str_includes (createSSML text voice language rate pitch) text = true
  /\ String.prefix "<speak " (createSSML text voice language rate pitch) = true
  /\ createSSML text voice language None None
     = createSSML text voice language (Some "1.0") (Some "0%").
Proof.
  assert (E : createSSML text voice language rate pitch
              = lines (ssml_lines text voice language (default "1.0" rate)
                         (default "0%" pitch))).
  { unfold createSSML, trim.
    set (r := default "1.0" rate). set (p := default "0%" pitch).
    unfold ssml_lines, lines. cbn [join].
    assert (K : forall x y, trim_end y = y /\ y <> "" ->
                  trim_end (trim_start ("" +:+ nl +:+ ("<speak " +:+ x) +:+ y))
                  = ("<speak " +:+ x) +:+ y).
    { intros x y Hy. change (trim_start ("" +:+ nl +:+ ("<speak " +:+ x) +:+ y))
        with (("<speak " +:+ x) +:+ y).
      apply trim_end_app. exact Hy. }
    apply K. do 11 apply trim_end_app. split; [reflexivity | discriminate]. }
  split; [exact E|]. split; [|split].
  - rewrite E. unfold ssml_lines, lines. cbn [join].
    do 3 (apply str_includes_app_r; apply str_includes_app_r).
    apply str_includes_app_l. apply str_includes_app_r. apply str_includes_self.
  - rewrite E. unfold ssml_lines, lines. cbn [join]. reflexivity.
  - reflexivity.
Qed.

(** ** The handler and its arguments *)

(** A request with a protocol-level fault gets the same answer whatever
    the environment and the world: validation reads neither. *)
Theorem faults_independent_of_world
    (env1 env2 : gmap string string) (resolve1 resolve2 : string -> string -> string)
    (toString1 toString2 : number -> string) (req : request) (w1 w2 : world)
    (k : failure_kind) :
  request_fault req = Some k ->
  callTool env1 resolve1 toString1 req w1 = callTool env2 resolve2 toString2 req w2
  /\ exists e, callTool env1 resolve1 toString1 req w1 = (Throw e, []).
Proof.
  unfold request_fault, callTool. destruct req as [n a]. cbn [name arguments].
  destruct (negb (String.eqb n "synthesize_speech")); [eauto|].
  destruct a as [args|]; [|eauto].
  cbv zeta. rewrite !string_guard_well_formed.
  destruct (negb (well_formed (args !! "sentence"))); [eauto|].
  destruct (negb (well_formed (args !! "language"))) eqn:Hl; [eauto|].
  apply negb_false_iff in Hl.
  destruct (args !! "language") as [[| | | | l | |]|] eqn:El; try discriminate Hl.
  assert (Hp : prop args "language" = JStr l) by (unfold prop; rewrite El; reflexivity).
  rewrite Hp. cbn [str_of]. rewrite includes_str.
  destruct (existsb (String.eqb l) supportedLanguages); [discriminate|].
  cbn [negb]. eauto.
Qed.

(** Every arguments object the declared inputSchema admits passes the
    handler's validation; its sentence has 1 to 1000 characters. *)
Theorem schema_valid_accepted (tool : Schema.tool) (args : gmap string value) :
  In tool listTools ->
  schema_valid (Schema.inputSchema tool) args = true ->
  request_fault (mkRequest (Schema.name tool) (Some args)) = None
  /\ exists s, args !! "sentence" = Some (JStr s) /\ 1 <= String.length s <= 1000.
Proof.
  intros [<- | []]. unfold schema_valid.
  cbn [Schema.inputSchema Schema.required Schema.properties Schema.name forallb fst snd].
  intros H.
  repeat match goal with
         | Hc : _ && _ = true |- _ => apply andb_true_iff in Hc; destruct Hc
         end.
  destruct (args !! "sentence") as [vs|] eqn:Es; [|discriminate].
  destruct (args !! "language") as [vl|] eqn:El; [|discriminate].
  destruct vs as [| | | | s | |]; try discriminate.
  destruct vl as [| | | | l | |]; try discriminate.
  unfold satisfies in *.
  cbn [Schema.type Schema.minLength Schema.maxLength Schema.enum] in *.
  repeat match goal with
         | Hc : _ && _ = true |- _ => apply andb_true_iff in Hc; destruct Hc
         end.
  repeat match goal with
         | Hc : (_ <=? _) = true |- _ => apply Nat.leb_le in Hc
         end.
  match goal with Hc : existsb _ _ = true |- _ => rename Hc into Hin end.
  split.
  - assert (Hs : String.eqb s "" = false) by (destruct s; [simpl in *; lia | reflexivity]).
    assert (Hl : String.eqb l "" = false).
    { destruct l; [simpl in Hin; discriminate Hin | reflexivity]. }
    unfold request_fault, prop. cbn [name arguments].
    rewrite String.eqb_refl, Es, El. unfold well_formed. rewrite Hs, Hl.
    cbn [negb from_option id str_of]. unfold supportedLanguages. rewrite Hin. reflexivity.
  - exists s. split; [reflexivity | lia].
Qed.

Section MoreProperties.

Variable process_env : gmap string string.
Variable path_resolve : string -> string -> string.
Variable Number_toString : number -> string.

Local Abbreviation synthesize := (synthesizeSpeech process_env path_resolve Number_toString).
Local Abbreviation handle := (callTool process_env path_resolve Number_toString).

(** synthesizeSpeech looks at the requested voice through
    getVoiceForLanguage only. *)
Lemma synthesize_voice (s l : string) (v1 v2 : value) (w : world) :
  getVoiceForLanguage l v1 = getVoiceForLanguage l v2 ->
  synthesize s l v1 w = synthesize s l v2 w.
Proof. intros H. unfold synthesizeSpeech. rewrite H. reflexivity. Qed.

(** The handler reads its arguments through sentence, language and, for
    a supported language, the voice that getVoiceForLanguage makes of
    voice. *)
Lemma handle_ext (args1 args2 : gmap string value) (w : world) :
  prop args1 "sentence" = prop args2 "sentence" ->
  prop args1 "language" = prop args2 "language" ->
  (includes supportedLanguages (prop args2 "language") = true ->
   getVoiceForLanguage (str_of (prop args2 "language")) (prop args1 "voice")
   = getVoiceForLanguage (str_of (prop args2 "language")) (prop args2 "voice")) ->
  handle (tool_call args1) w = handle (tool_call args2) w.
Proof.
  intros Hs Hl Hv. unfold callTool, tool_call. cbn [name arguments].
  rewrite String.eqb_refl. cbn [negb]. cbv zeta. rewrite Hs, Hl.
  destruct (negb _ || negb _); [reflexivity|].
  destruct (negb _ || negb _); [reflexivity|].
  destruct (includes supportedLanguages (prop args2 "language")); [|reflexivity].
  cbn [negb]. rewrite (synthesize_voice _ _ _ _ w (Hv eq_refl)). reflexivity.
Qed.

Lemma prop_insert_ne (args : gmap string value) (k k' : string) (x : value) :
  k <> k' -> prop (<[k := x]> args) k' = prop args k'.
Proof. intros H. unfold prop. rewrite lookup_insert_ne by exact H. reflexivity. Qed.

Lemma prop_delete_ne (args : gmap string value) (k k' : string) :
  k <> k' -> prop (delete k args) k' = prop args k'.
Proof. intros H. unfold prop. rewrite lookup_delete_ne by exact H. reflexivity. Qed.

(** Arguments other than sentence, language and voice are ignored. *)
Theorem extra_arguments_ignored (args : gmap string value) (key : string) (x : value)
    (w : world) :
  key <> "sentence" -> key <> "language" -> key <> "voice" ->
  handle (tool_call (<[key := x]> args)) w = handle (tool_call args) w
  /\ handle (tool_call (delete key args)) w = handle (tool_call args) w.
Proof.
  intros Hs Hl Hv. split; apply handle_ext;
    rewrite ?prop_insert_ne, ?prop_delete_ne by assumption; try reflexivity.
  all: intros _; reflexivity.
Qed.

(** A voice argument that is not a voice of the language's profile (not a
    string, or a string the profile does not allow) is answered like no
    voice argument at all. *)
Theorem invalid_voice_as_absent (args : gmap string value) (V : value) (w : world) :
  (forall l p v, args !! "language" = Some (JStr l) -> VOICE_CONFIG !! l = Some p ->
                 V = JStr v -> ~ allowed p v) ->
  handle (tool_call (<["voice" := V]> args)) w
  = handle (tool_call (delete "voice" args)) w.
Proof.
  intros H. apply handle_ext.
  - rewrite prop_insert_ne, prop_delete_ne by discriminate. reflexivity.
  - rewrite prop_insert_ne, prop_delete_ne by discriminate. reflexivity.
  - rewrite prop_delete_ne by discriminate. intros Hin.
    apply includes_In in Hin. destruct Hin as (l & El & Hsup).
    rewrite El. cbn [str_of].
    apply VOICE_CONFIG_supported in Hsup. destruct Hsup as (p & Hp).
    assert (Hlang : args !! "language" = Some (JStr l)).
    { unfold prop in El. destruct (args !! "language") as [x|]; simpl in El;
        [congruence | discriminate]. }
    unfold prop. rewrite lookup_insert_eq, lookup_delete_eq. cbn [from_option id].
    rewrite !(getVoiceForLanguage_own l p _ Hp). cbn [truthy andb].
    destruct (strict_eq_str V (default_voice p) || includes (alternatives p) V) eqn:E.
    + apply allowed_value in E. destruct E as (v & -> & Hv).
      exfalso. exact (H l p v Hlang Hp eq_refl Hv).
    + rewrite andb_false_r. reflexivity.
Qed.

(** The credentials message is the rejection exactly when no key is set:
    the region, which the message also names, is never the cause. *)
Theorem credentials_message_iff_no_key (s l : string) (v : value) (w : world) :
  fst (synthesize s l v w) = Rejected credentials_message
  <-> truthy_opt (process_env !! "AZURE_SPEECH_KEY") = false
      /\ truthy_opt (process_env !! "AZURE_SPEECH_KEY_FREE") = false.
Proof.
  rewrite <- orb_false_iff, <- credentials_key. split.
  - destruct (synthesize s l v w) as [[r | m] calls] eqn:E; cbn [fst]; [discriminate|].
    intros [= ->]. apply synthesize_rejected in E. destruct E as [Hf _].
    inversion Hf; try assumption.
  - intros H. rewrite (synthesize_no_credentials _ _ _ _ _ _ _ H). reflexivity.
Qed.

(** ** What the SDK and the file system are asked *)

(** synthesizeSpeech either makes no call, or passes speakTextAsync the
    sentence as it is with the language and the resolved voice and then
    closes the synthesizer; between the two it writes the audio the SDK
    returned, which is not empty, and nothing else. *)
Theorem synthesis_call_shape (s l : string) (v : value) (w : world) :
  snd (synthesize s l v w) = []
  \/ exists selected,
       getVoiceForLanguage l v = Normal (JStr selected)
       /\ (snd (synthesize s l v w) = [SpeakTextAsync s l selected; Close]
           \/ exists result data,
                sdk_reply w = Sdk.Result result
                /\ Sdk.audioData result = Some data /\ data <> []
                /\ snd (synthesize s l v w)
                   = [ SpeakTextAsync s l selected;
                       WriteFileSync
                         (file_path process_env path_resolve l selected (now_iso w)) data;
                       Close ]).
Proof.
  unfold synthesizeSpeech.
  destruct (negb _ || negb _); [left; reflexivity|].
  destruct (getVoiceForLanguage l v) as [selected | e]; [|left; reflexivity].
  destruct (sdk_setup w); [left; reflexivity|].
  destruct selected as [| | | | selected | |]; try (left; reflexivity).
  right. exists selected. split; [reflexivity|].
  destruct (sdk_reply w) as [result | err]; [|left; reflexivity].
  destruct (truthy_opt (Sdk.errorDetails result)); [left; reflexivity|].
  unfold no_audio.
  destruct (Sdk.audioData result) as [data|] eqn:Hd; [|left; reflexivity].
  destruct (length data =? 0) eqn:Hlen; [left; reflexivity|].
  right. exists result, data. cbn [from_option id].
  assert (Hne : data <> []) by (intros ->; discriminate Hlen).
  destruct (write_error w); auto.
Qed.

Lemma all_chars_app (p : ascii -> bool) (a b : string) :
  all_chars p (a +:+ b) = all_chars p a && all_chars p b.
Proof. unfold all_chars. rewrite list_ascii_app. apply forallb_app. Qed.

Lemma replace_all_chars (class p : ascii -> bool) (c : ascii) (s : string) :
  p c = true ->
  (forall x, In x (list_ascii_of_string s) -> class x = false -> p x = true) ->
  all_chars p (replace_all class (String c EmptyString) s) = true.
Proof.
  intros Hc. unfold all_chars. induction s as [|x s IH]; intros H; [reflexivity|].
  cbn [replace_all]. destruct (class x) eqn:Hx.
  - change (String c "" +:+ replace_all class (String c "") s)
      with (String c (replace_all class (String c "") s)).
    cbn [list_ascii_of_string forallb]. rewrite Hc. apply IH.
    intros y Hy. apply H. right. exact Hy.
  - change (String x "" +:+ replace_all class (String c "") s)
      with (String x (replace_all class (String c "") s)).
    cbn [list_ascii_of_string forallb]. rewrite (H x (or_introl eq_refl) Hx).
    apply IH. intros y Hy. apply H. right. exact Hy.
Qed.

(** For a supported language and a time stamp of ISO characters the file
    name of a successful synthesis consists of letters, digits, hyphens,
    underscores and periods: it holds no path separator, colon or
    white space. *)
Theorem file_name_safe (s l : string) (v : value) (w : world) (r : resultObj)
    (calls : list event) :
  In l supportedLanguages ->
  all_chars iso_char (now_iso w) = true ->
  synthesize s l v w = (Resolved r, calls) ->
  all_chars safe_char (filename r) = true.
Proof.
  intros Hl Hiso H. apply synthesize_resolved in H.
  destruct H as (selected & result & data & _ & _ & _ & _ & -> & _).
  cbn [filename]. unfold file_name. rewrite !all_chars_app.
  assert (Hlang : all_chars safe_char (replace_first "-" "_" l) = true).
  { simpl in Hl. repeat (destruct Hl as [<- | Hl]; [vm_compute; reflexivity|]).
    contradiction. }
  assert (Hvoice : all_chars safe_char (replace_all (fun c => negb (alnum c)) "-" selected)
                   = true).
  { apply (replace_all_chars _ safe_char "-"); [reflexivity|].
    intros x _ Hx. apply negb_false_iff in Hx. unfold safe_char. rewrite Hx. reflexivity. }
  assert (Hstamp : all_chars safe_char (replace_all colon_or_dot "-" (now_iso w)) = true).
  { apply (replace_all_chars _ safe_char "-"); [reflexivity|].
    intros x Hin Hx. unfold all_chars in Hiso. rewrite forallb_forall in Hiso.
    specialize (Hiso x Hin). unfold iso_char in Hiso. rewrite Hx, orb_false_r in Hiso.
    unfold safe_char. apply orb_true_iff in Hiso. destruct Hiso as [-> | ->];
      [reflexivity | rewrite orb_true_r; reflexivity]. }
  rewrite Hlang, Hvoice, Hstamp. reflexivity.
Qed.

(** The file of a synthesis is named after the language, the resolved
    voice and the time stamp only: two successful syntheses that agree on
    these write the same file, whatever their sentences. *)
Theorem same_instant_same_file (s1 s2 l : string) (v1 v2 : value) (w1 w2 : world)
    (r1 r2 : resultObj) (calls1 calls2 : list event) :
  synthesize s1 l v1 w1 = (Resolved r1, calls1) ->
  synthesize s2 l v2 w2 = (Resolved r2, calls2) ->
  voice r1 = voice r2 ->
  now_iso w1 = now_iso w2 ->
  audioFile r1 = audioFile r2
  /\ exists data1 data2,
       In (WriteFileSync (audioFile r1) data1) calls1
       /\ In (WriteFileSync (audioFile r1) data2) calls2.
Proof.
  intros H1 H2 Hv Ht.
  apply synthesize_resolved in H1. apply synthesize_resolved in H2.
  destruct H1 as (sel1 & res1 & data1 & _ & _ & _ & _ & -> & ->).
  destruct H2 as (sel2 & res2 & data2 & _ & _ & _ & _ & -> & ->).
  cbn [voice audioFile] in *. subst sel2. rewrite Ht.
  split; [reflexivity|]. exists data1, data2. simpl. auto.
Qed.

Ltac no_file :=
  cbn [fst snd]; split;
  [ intros (path & data & Hin); cbn [In] in Hin;
    repeat (destruct Hin as [Hin | Hin]; [discriminate Hin|]); destruct Hin
  | intros [(r & H) | (m & _ & H)];
    [ discriminate H
    | exfalso; injection H as H; unfold credentials_message in H; simpl in H;
      discriminate H ] ].

(** writeFileSync is called exactly when the synthesis resolves or is
    rejected because that call threw: a rejection for missing credentials,
    a setup error, an SDK failure, error details or empty audio comes with
    no write.  Error details take precedence over the audio: a result
    that carries them is rejected for them once speakTextAsync was called,
    and the synthesizer is only closed, whatever audio the result holds. *)
Theorem writeFileSync_called_iff (s l : string) (v : value) (w : world) :
  ((exists path data, In (WriteFileSync path data) (snd (synthesize s l v w)))
   <-> (exists r, fst (synthesize s l v w) = Resolved r)
       \/ (exists m, write_error w = Some m
                     /\ fst (synthesize s l v w)
                        = Rejected ("Failed to save audio file: " +:+ m)))
  /\ (forall result detail,
        sdk_reply w = Sdk.Result result ->
        Sdk.errorDetails result = Some detail -> detail <> "" ->
        snd (synthesize s l v w) = []
        \/ (fst (synthesize s l v w) = Rejected ("Speech synthesis failed: " +:+ detail)
            /\ exists selected,
                 snd (synthesize s l v w) = [SpeakTextAsync s l selected; Close])).
Proof.
  split.
  - unfold synthesizeSpeech, setup_error.
    destruct (negb _ || negb _); [no_file|].
    destruct (getVoiceForLanguage l v) as [selected | e]; [|no_file].
    destruct (sdk_setup w); [no_file|].
    destruct selected as [| | | | selected | |]; try no_file.
    destruct (sdk_reply w) as [result | err]; [|no_file].
    destruct (truthy_opt (Sdk.errorDetails result)); [no_file|].
    destruct (no_audio result); [no_file|].
    destruct (write_error w) as [m|]; cbn [fst snd]; split; intros _.
    + right. exists m. split; reflexivity.
    + eexists. eexists. right. left. reflexivity.
    + left. eexists. reflexivity.
    + eexists. eexists. right. left. reflexivity.
  - intros result detail Hr Hd Hne. unfold synthesizeSpeech, setup_error.
    destruct (negb _ || negb _); [left; reflexivity|].
    destruct (getVoiceForLanguage l v) as [selected | e]; [|left; reflexivity].
    destruct (sdk_setup w); [left; reflexivity|].
    destruct selected as [| | | | selected | |]; try (left; reflexivity).
    rewrite Hr, Hd. cbn [truthy_opt]. unfold truthy_str.
    destruct (String.eqb_spec detail ""); [contradiction|]. cbn [negb].
    right. split; [reflexivity | eexists; reflexivity].
Qed.


(** The default the inputSchema declares for language is not applied: a
    request with a sentence and no language is refused. *)
Theorem schema_default_not_applied (args : gmap string value) (w : world) :
  well_formed (args !! "sentence") = true ->
  args !! "language" = None ->
  (exists tool p, In tool listTools
                  /\ Schema.property_of (Schema.inputSchema tool) "language" = Some p
                  /\ Schema.default p = Some "en-US")
  /\ handle (tool_call args) w = (Throw (invalid_parameter "language"), [])
  /\ handle (tool_call (<["language" := JStr "en-US"]> args)) w
     <> (Throw (invalid_parameter "language"), []).
Proof.
  intros Hs Hl. split; [|split].
  - eexists. eexists. split; [left; reflexivity|]. split; reflexivity.
  - apply handle_invalid_language; [exact Hs|]. rewrite Hl. reflexivity.
  - rewrite handle_valid.
    + destruct (synthesize _ _ _ w) as [[r | m] calls]; discriminate.
    + rewrite lookup_insert_ne by discriminate. exact Hs.
    + rewrite lookup_insert. reflexivity.
    + unfold prop. rewrite lookup_insert. reflexivity.
Qed.

End MoreProperties.

(** The settings read from the environment: an empty value counts as
    unset; the primary key wins over the free one; the region and the
    output directory are never empty. *)
Theorem configuration_fallbacks (env : gmap string string) :
  (forall k, env !! "AZURE_SPEECH_KEY" = Some k -> k <> "" ->
             AZURE_SPEECH_KEY env = Some k)
  /\ (truthy_opt (env !! "AZURE_SPEECH_KEY") = false ->
      AZURE_SPEECH_KEY env = env !! "AZURE_SPEECH_KEY_FREE")
  /\ (truthy_opt (env !! "AZURE_SPEECH_REGION") = false ->
      truthy_opt (env !! "AZURE_SPEECH_REGION_FREE") = false ->
      AZURE_SPEECH_REGION env = "westeurope")
  /\ (truthy_opt (env !! "AUDIO_OUTPUT_DIR") = false ->
      AUDIO_OUTPUT_DIR env = "./audio/mcp-generated")
  /\ (forall d, env !! "AUDIO_OUTPUT_DIR" = Some d -> d <> "" -> AUDIO_OUTPUT_DIR env = d)
  /\ AZURE_SPEECH_REGION env <> ""
  /\ AUDIO_OUTPUT_DIR env <> "".
Proof.
  unfold AZURE_SPEECH_KEY, AZURE_SPEECH_REGION, AUDIO_OUTPUT_DIR.
  assert (falsy : forall a b, truthy_opt a = false -> or_else a b = b).
  { intros [x|] b; cbn; [|reflexivity]. unfold truthy_str.
    destruct (String.eqb x ""); [reflexivity | discriminate]. }
  assert (falsy_d : forall a d, truthy_opt a = false -> or_default a d = d).
  { intros [x|] d; cbn; [|reflexivity]. unfold truthy_str.
    destruct (String.eqb x ""); [reflexivity | discriminate]. }
  assert (nonempty : forall a d, d <> "" -> or_default a d <> "").
  { intros [x|] d Hd; cbn; [|exact Hd].
    destruct (String.eqb_spec x ""); [exact Hd | assumption]. }
  repeat split.
  - intros k -> Hk. cbn. destruct (String.eqb_spec k ""); [contradiction | reflexivity].
  - apply falsy.
  - intros H1 H2. rewrite (falsy _ _ H1). apply falsy_d. exact H2.
  - apply falsy_d.
  - intros d -> Hd. cbn. destruct (String.eqb_spec d ""); [contradiction | reflexivity].
  - apply nonempty. discriminate.
  - apply nonempty. discriminate.
Qed.

(** Every voice the inputSchema gives as an example is accepted as it is
    for the supported language its name begins with. *)
Theorem advertised_voices_accepted (tool : Schema.tool) (p : Schema.property)
    (voices : list string) (v : string) :
  In tool listTools ->
  Schema.property_of (Schema.inputSchema tool) "voice" = Some p ->
  Schema.examples p = Some voices ->
  In v voices ->
  exists l, In l supportedLanguages
            /\ String.prefix l v = true
            /\ getVoiceForLanguage l (JStr v) = Normal (JStr v).
Proof.
  intros [<- | []] [= <-] [= <-] Hv. exists (String.substring 0 5 v).
  cbn [In] in Hv.
  repeat (destruct Hv as [<- | Hv];
          [split; [vm_compute; auto 10 | split; vm_compute; reflexivity]|]).
  destruct Hv.
Qed.

(** ** The test suite *)

(** The missing-sentence test passes on every response that is not an
    error: the Error it throws in that case itself mentions sentence, and
    its own catch accepts it.  It fails only on a rejection whose message
    does not mention sentence, such as a timeout.  The other two
    error-handling tests do fail on a result. *)
Theorem missing_sentence_test_blind :
  (forall o, Test.missing_sentence_test o = Test.Pass
             <-> (exists r, o = Test.Resolve r)
                 \/ (exists m, o = Test.Reject m /\ str_includes m "sentence" = true))
  /\ Test.missing_sentence_test (Test.sendRequest "tools/call" Test.Nothing)
     = Test.Fail "Expected error message about missing sentence"
  /\ (forall r, Test.unsupported_language_test (Test.Resolve r)
                = Test.Fail "Expected error message about unsupported language")
  /\ (forall r, Test.unknown_tool_test (Test.Resolve r)
                = Test.Fail "Expected error message about unknown tool").
Proof.
  split; [|repeat split; reflexivity].
  intros [r | m]; unfold Test.missing_sentence_test, Test.expect_rejection.
  - split; [eauto | reflexivity].
  - destruct (str_includes m "sentence") eqn:E; split.
    + eauto.
    + reflexivity.
    + discriminate.
    + intros [(r & Hr) | (m' & [= <-] & Hm)]; [discriminate Hr | congruence].
Qed.

Section SuiteProperties.

Variable process_env : gmap string string.
Variable path_resolve : string -> string -> string.
Variable Number_toString : number -> string.

Local Abbreviation synthesize := (synthesizeSpeech process_env path_resolve Number_toString).
Local Abbreviation call := (Test.call process_env path_resolve Number_toString).
Local Abbreviation tests := (Test.tests process_env path_resolve Number_toString).
Local Abbreviation run := (Test.run process_env path_resolve Number_toString).

Lemma call_missing_sentence (w : world) :
  call (tool_call Test.missing_sentence_args) w
  = Test.Reject ("MCP Error: " +:+ message (invalid_parameter "sentence")).
Proof.
  unfold Test.call. rewrite handle_invalid_sentence by (vm_compute; reflexivity).
  reflexivity.
Qed.

Lemma call_unsupported_language (w : world) :
  call (tool_call Test.unsupported_language_args) w
  = Test.Reject ("MCP Error: " +:+ message (unsupported_language "xx-XX")).
Proof.
  unfold Test.call. rewrite handle_unsupported by (vm_compute; reflexivity).
  vm_compute. reflexivity.
Qed.

Lemma call_unknown_tool (w : world) :
  call Test.unknown_tool_request w
  = Test.Reject ("MCP Error: " +:+ message (unknown_tool "unknown_tool")).
Proof. reflexivity. Qed.

(** A request without protocol-level fault is answered by a result. *)
Lemma call_no_fault (req : request) (w : world) :
  request_fault req = None ->
  exists args s l,
    req = tool_call args
    /\ call req w
       = Test.Resolve
           (text_response
              match fst (synthesize s l (prop args "voice") w) with
              | Resolved r => success_text Number_toString r
              | Rejected m => failure_text m
              end)
    /\ args !! "sentence" = Some (JStr s) /\ args !! "language" = Some (JStr l).
Proof.
  intros H. destruct (handle_no_fault process_env path_resolve Number_toString req w H)
    as (args & s & l & -> & Hs & _ & Hl & _ & Hh).
  exists args, s, l. split; [reflexivity|]. split; [|auto].
  unfold Test.call. rewrite Hh.
  destruct (synthesize s l (prop args "voice") w) as [[r | m] calls]; reflexivity.
Qed.

(** In every environment and against every behaviour of the SDK the
    list-tools test and the three error-handling tests pass on the
    server. *)
Theorem offline_tests_pass (worlds : nat -> world) :
  nth_error (tests worlds) 0 = Some ("List available tools", Test.Pass)
  /\ nth_error (tests worlds) 4 = Some ("Handle missing sentence parameter", Test.Pass)
  /\ nth_error (tests worlds) 5 = Some ("Handle unsupported language", Test.Pass)
  /\ nth_error (tests worlds) 6 = Some ("Handle unknown tool", Test.Pass).
Proof.
  unfold Test.tests. cbn [nth_error].
  rewrite call_missing_sentence, call_unsupported_language, call_unknown_tool.
  repeat split; reflexivity.
Qed.

(** Without credentials the suite sends no synthesis request and ends
    with 8 tests passed, none failed and exit code 0, whatever the SDK
    would do. *)
Theorem suite_without_credentials (worlds : nat -> world) :
  Test.hasCredentials process_env = false ->
  run None worlds = (8, 0, 0%Z).
Proof.
  intros H. unfold Test.run, Test.tests. rewrite H.
  rewrite call_missing_sentence, call_unsupported_language, call_unknown_tool.
  reflexivity.
Qed.

(** The response to a valid request whose synthesis resolves passes the
    speech test, and the voice test when the resolved voice is a Jenny
    voice. *)
Theorem speech_tests_pass_on_success (args : gmap string value) (w : world)
    (r : resultObj) :
  request_fault (tool_call args) = None ->
  fst (synthesize (str_of (prop args "sentence")) (str_of (prop args "language"))
         (prop args "voice") w) = Resolved r ->
  Test.speech_test (call (tool_call args) w) = Test.Pass
  /\ (str_includes (voice r) "JennyMultilingualNeural" = true ->
      Test.voice_test (call (tool_call args) w) = Test.Pass).
Proof.
  intros Hf Hr.
  destruct (handle_no_fault process_env path_resolve Number_toString _ w Hf)
    as (args' & s & l & [= <-] & Hs & _ & Hl & _ & Hh).
  unfold prop in Hr at 1 2. rewrite Hs, Hl in Hr. cbn [from_option id str_of] in Hr.
  unfold Test.call. rewrite Hh.
  destruct (synthesize s l (prop args "voice") w) as [[r' | m] calls];
    cbn [fst] in *; [|discriminate Hr].
  injection Hr as ->.
  unfold Test.speech_test, Test.voice_test, Test.expect_text, Test.text_content.
  cbn [Test.served Test.sendRequest text_response content find content_type text
       String.eqb Ascii.eqb Bool.eqb].
  assert (Hne : String.eqb (success_text Number_toString r) "" = false) by reflexivity.
  rewrite Hne. unfold success_text, lines. cbn [join]. split.
  - rewrite str_includes_app_l; [reflexivity|]. vm_compute. reflexivity.
  - intros Hv.
    rewrite (str_includes_app_r _ _ _
               (str_includes_app_r _ _ _
               (str_includes_app_r _ _ _
               (str_includes_app_r _ _ _
               (str_includes_app_r _ _ _
               (str_includes_app_r _ _ _
               (str_includes_app_r _ _ _
               (str_includes_app_r _ _ _
               (str_includes_app_r _ _ _
               (str_includes_app_r _ _ _
               (str_includes_app_l _ _ _
               (str_includes_app_r _ _ _ Hv)))))))))))).
    reflexivity.
Qed.

(** The multiple-requests test passes on any requests that pass the
    handler's validation, whatever becomes of their syntheses: it looks
    for a response with content, which a reported failure is too. *)
Theorem requests_test_blind (sent : list (request * world)) :
  (forall x, In x sent -> request_fault (fst x) = None) ->
  Test.requests_test (map (fun x => call (fst x) (snd x)) sent) = Test.Pass.
Proof.
  induction sent as [|[req w] sent IH]; intros H; [reflexivity|].
  cbn [map fst snd Test.requests_test].
  destruct (call_no_fault req w (H (req, w) (or_introl eq_refl)))
    as (args & s & l & _ & -> & _).
  apply IH. intros x Hx. apply H. right. exact Hx.
Qed.

Lemma failed_none (vs : list Test.verdict) :
  length (List.filter (fun v => negb (Test.passes v)) vs) = 0
  <-> forallb Test.passes vs = true.
Proof.
  induction vs as [|v vs IH]; [split; reflexivity|].
  cbn [List.filter forallb]. destruct (Test.passes v); cbn [negb andb length].
  - exact IH.
  - split; discriminate.
Qed.

Lemma passed_failed (vs : list Test.verdict) :
  length (List.filter Test.passes vs)
  + length (List.filter (fun v => negb (Test.passes v)) vs) = length vs.
Proof.
  induction vs as [|v vs IH]; [reflexivity|].
  cbn [List.filter]. destruct (Test.passes v); cbn [negb length]; lia.
Qed.

(** The suite exits with code 0 exactly when the server started and every
    test passed; once the server has started, each of the 8 tests is
    counted as passed or as failed. *)
Theorem run_exit_code (start_error : option string) (worlds : nat -> world) :
  (snd (run start_error worlds) = 0%Z
   <-> start_error = None /\ forallb Test.passes (map snd (tests worlds)) = true)
  /\ fst (fst (run None worlds)) + snd (fst (run None worlds)) = 8.
Proof.
  split.
  - unfold Test.run. destruct start_error as [e|]; cbn [snd].
    + split; [discriminate | intros [H _]; discriminate H].
    + rewrite <- failed_none.
      destruct (length (List.filter (fun v => negb (Test.passes v))
                          (map snd (tests worlds)))) eqn:E; cbn [Nat.eqb].
      * split; auto.
      * split; [discriminate | intros [_ H]; discriminate H].
  - unfold Test.run. cbn [fst snd]. rewrite passed_failed. reflexivity.
Qed.

End SuiteProperties.

(** ** The further properties at sample inputs *)

Lemma getVoiceForLanguage_idempotent_witness :
  getVoiceForLanguage "fi-FI" (JStr "fi-FI-SelmaNeural") = Normal (JStr "fi-FI-SelmaNeural").
Proof.
  apply (getVoiceForLanguage_idempotent "fi-FI" (JStr "fi-FI-SelmaNeural")).
  vm_compute. reflexivity.
Defined.

Lemma faults_independent_of_world_witness :
  callTool sample_env sample_resolve sample_toString Test.unknown_tool_request sample_world
  = callTool ∅ (fun dir file => file) (fun _ => "") Test.unknown_tool_request silent_world.
Proof.
  apply (faults_independent_of_world sample_env ∅ sample_resolve (fun dir file => file)
           sample_toString (fun _ => "") Test.unknown_tool_request sample_world
           silent_world UnknownTool).
  reflexivity.
Defined.

Lemma schema_valid_accepted_witness :
  exists s, sample_args !! "sentence" = Some (JStr s) /\ 1 <= String.length s <= 1000.
Proof.
  destruct listTools as [|tool tools] eqn:E; [discriminate E|].
  apply (schema_valid_accepted tool sample_args).
  - rewrite E. left. reflexivity.
  - injection E as <- _. vm_compute. reflexivity.
Defined.

Lemma extra_arguments_ignored_witness :
  callTool sample_env sample_resolve sample_toString
    (tool_call (<["rate" := JStr "1.5"]> sample_args)) sample_world
  = callTool sample_env sample_resolve sample_toString (tool_call sample_args) sample_world.
Proof.
  apply (extra_arguments_ignored sample_env sample_resolve sample_toString sample_args
           "rate" (JStr "1.5") sample_world); discriminate.
Defined.

Lemma invalid_voice_as_absent_witness :
  callTool sample_env sample_resolve sample_toString
    (tool_call (<["voice" := JStr "fi-FI-SelmaNeural"]> sample_args)) sample_world
  = callTool sample_env sample_resolve sample_toString
      (tool_call (delete "voice" sample_args)) sample_world.
Proof.
  apply (invalid_voice_as_absent sample_env sample_resolve sample_toString sample_args
           (JStr "fi-FI-SelmaNeural") sample_world).
  intros l p v Hl Hp Hv.
  vm_compute in Hl. injection Hl as <-.
  vm_compute in Hp. injection Hp as <-.
  injection Hv as <-.
  unfold allowed. cbn. intros [H | [H | [H | []]]]; discriminate H.
Defined.

Lemma file_name_safe_witness :
  all_chars safe_char (filename sample_result) = true.
Proof.
  apply (file_name_safe sample_env sample_resolve sample_toString
           "Hello, this is a test." "en-US" JUndefined sample_world sample_result
           sample_calls).
  - left. reflexivity.
  - vm_compute. reflexivity.
  - exact sample_synthesis.
Defined.

Lemma same_instant_same_file_witness :
  exists r calls,
    synthesizeSpeech sample_env sample_resolve sample_toString
      "Another sentence." "en-US" (JStr "en-US-RyanMultilingualNeural") sample_world
    = (Resolved r, calls)
    /\ audioFile sample_result = audioFile r.
Proof.
  eexists. eexists. split; [vm_compute; reflexivity|].
  eapply (same_instant_same_file sample_env sample_resolve sample_toString
           "Hello, this is a test." "Another sentence." "en-US" JUndefined
           (JStr "en-US-RyanMultilingualNeural") sample_world sample_world
           sample_result _ sample_calls _ sample_synthesis).
  - vm_compute. reflexivity.
  - reflexivity.
  - reflexivity.
Defined.

Lemma suite_without_credentials_witness :
  Test.run ∅ sample_resolve sample_toString None (fun _ => sample_world) = (8, 0, 0%Z).
Proof.
  apply (suite_without_credentials ∅ sample_resolve sample_toString
           (fun _ => sample_world)).
  reflexivity.
Defined.

Lemma speech_tests_pass_on_success_witness :
  Test.speech_test
    (Test.call sample_env sample_resolve sample_toString (tool_call sample_args)
       sample_world)
  = Test.Pass.
Proof.
  apply (speech_tests_pass_on_success sample_env sample_resolve sample_toString
           sample_args sample_world sample_result).
  - vm_compute. reflexivity.
  - vm_compute. reflexivity.
Defined.

Lemma requests_test_blind_witness :
  Test.requests_test
    (map (fun x => Test.call sample_env sample_resolve sample_toString (fst x) (snd x))
       [ (tool_call (Test.quick_args "First test"), silent_world);
         (tool_call (Test.quick_args "Second test"), silent_world);
         (tool_call (Test.quick_args "Third test"), silent_world) ])
  = Test.Pass.
Proof.
  apply (requests_test_blind sample_env sample_resolve sample_toString).
  intros x [<- | [<- | [<- | []]]]; vm_compute; reflexivity.
Defined.


Lemma schema_default_not_applied_witness :
  callTool sample_env sample_resolve sample_toString
    (tool_call {[ "sentence" := JStr "Hello." ]}) sample_world
  = (Throw (invalid_parameter "language"), []).
Proof.
  apply (schema_default_not_applied sample_env sample_resolve sample_toString
           {[ "sentence" := JStr "Hello." ]} sample_world).
  - vm_compute. reflexivity.
  - vm_compute. reflexivity.
Defined.

Lemma advertised_voices_accepted_witness :
  exists l, In l supportedLanguages
            /\ String.prefix l "fi-FI-SelmaNeural" = true
            /\ getVoiceForLanguage l (JStr "fi-FI-SelmaNeural")
               = Normal (JStr "fi-FI-SelmaNeural").
Proof.
  destruct listTools as [|tool tools] eqn:E; [discriminate E|].
  injection E as <- _.
  eapply (advertised_voices_accepted _ _ _ "fi-FI-SelmaNeural").
  - left. reflexivity.
  - vm_compute. reflexivity.
  - reflexivity.
  - vm_compute. auto.
Defined.


Lemma writeFileSync_called_iff_witness :
  fst (synthesizeSpeech sample_env sample_resolve sample_toString
         "Hello, this is a test." "en-US" JUndefined
         (with_reply sample_world
            (Sdk.Result (Sdk.mkResult (Some "Quota exceeded") (Some sample_audio)
                           (Some 12345000%Z)))))
  = Rejected "Speech synthesis failed: Quota exceeded".
Proof.
  destruct (writeFileSync_called_iff sample_env sample_resolve sample_toString
              "Hello, this is a test." "en-US" JUndefined
              (with_reply sample_world
                 (Sdk.Result (Sdk.mkResult (Some "Quota exceeded") (Some sample_audio)
                                (Some 12345000%Z)))))
    as (_ & H).
  destruct (H _ "Quota exceeded" eq_refl eq_refl) as [Hnone | (Hr & _)].
  - discriminate.
  - vm_compute in Hnone. discriminate Hnone.
  - exact Hr.
Defined.
